(** * document_portal: credential resolution and model loading

    A shallow embedding of [utils/model_loader.py]: the [ApiKeyManager]
    class (constructor and [get]) and the two build methods of
    [ModelLoader], followed by the properties of the specification that
    concern them.

    Python objects are embedded as follows.
    - A Python value is a [pyval]; the constructors are the types that
      [json.loads] and a YAML loader produce.
    - A [str] is a [string]; one character of the Rocq string stands for
      one character of the Python string.
    - A [dict] with [str] keys is an association list in insertion order.
      Keys that are not [str] never compare equal to a [str] key, so they
      would take no part in any lookup made by the source.
    - [os.environ] is a finite map from names to values.
    - A computation that logs and may raise is a value of [M A]: the log
      records it emitted, in order, and its outcome. *)

From Corelib Require Import PrimFloat.
From Stdlib Require Import Ascii.
From stdpp Require Import base strings gmap list pretty.

#[local] Set Warnings "-register-all,-inexact-float".

(** ** Python values *)

Inductive pyval : Type :=
  | VNone
  | VBool (b : bool)
  | VInt (z : Z)
  | VFloat (f : float)
  | VStr (s : string)
  | VList (l : list pyval)
  | VDict (d : list (string * pyval)).

Abbreviation dict := (list (string * pyval)).

(** [bool(v)]: the truth value Python's [if v] and [not v] test. *)
Definition py_truthy (v : pyval) : bool :=
  match v with
  | VNone => false
  | VBool b => b
  | VInt z => negb (Z.eqb z 0)
  | VFloat f => negb (PrimFloat.eqb f 0%float)
  | VStr s => negb (String.eqb s "")
  | VList l => match l with [] => false | _ :: _ => true end
  | VDict d => match d with [] => false | _ :: _ => true end
  end.

(** [v == s] for a [str] literal [s]. *)
Definition py_eq_str (v : pyval) (s : string) : bool :=
  match v with
  | VStr s' => String.eqb s' s
  | _ => false
  end.

(** ** Strings *)

(** [s[:n]] *)
Fixpoint slice_upto (n : nat) (s : string) : string :=
  match n, s with
  | S n', String c s' => String c (slice_upto n' s')
  | _, _ => EmptyString
  end.

(** [needle in hay] on two [str]s: substring test. *)
Fixpoint str_contains (needle hay : string) : bool :=
  String.prefix needle hay ||
  match hay with
  | EmptyString => false
  | String _ rest => str_contains needle rest
  end.

(** ** Dictionaries *)

(** [d.get(key)] as an option: [None] when the key is absent. *)
Fixpoint dict_get (d : dict) (key : string) : option pyval :=
  match d with
  | [] => None
  | (k, v) :: rest => if String.eqb k key then Some v else dict_get rest key
  end.

(** [d.get(key, dflt)] *)
Definition dict_get_or (d : dict) (key : string) (dflt : pyval) : pyval :=
  default dflt (dict_get d key).

(** [d[key] = v]: overwrite in place, or append a new entry. *)
Fixpoint dict_set (d : dict) (key : string) (v : pyval) : dict :=
  match d with
  | [] => [(key, v)]
  | (k, x) :: rest =>
      if String.eqb k key then (k, v) :: rest else (k, x) :: dict_set rest key v
  end.

(** [key in d] *)
Definition dict_contains (d : dict) (key : string) : bool :=
  match dict_get d key with Some _ => true | None => false end.

(** ** Exceptions and outcomes *)

Inductive exn_class : Type :=
  | KeyError
  | TypeError
  | AttributeError
  | ValueError
  | DocumentPortalException
  | OtherException (name : string).

(** An exception instance (of a subclass of [Exception]): its class, the
    argument it was built with, and the exception that was being handled
    when it was raised.  The last field is what Python records as
    [__context__] and what [sys.exc_info()] shows to the constructor of
    [DocumentPortalException], which receives [sys]; it is [None] for a
    [raise] outside an [except] block.  The texts of the errors the
    interpreter raises itself depend on the Python version; nothing below
    depends on them. *)
Inductive exn : Type :=
  | Exn (cls : exn_class) (arg : string) (context : option exn).

Definition exn_cls (e : exn) : exn_class := let 'Exn c _ _ := e in c.
Definition exn_arg (e : exn) : string := let 'Exn _ a _ := e in a.
Definition exn_context (e : exn) : option exn := let 'Exn _ _ c := e in c.

Inductive result (A : Type) : Type :=
  | Ok (a : A)
  | Raise (e : exn).
Arguments Ok {A} a.
Arguments Raise {A} e.

Definition result_bind {A B} (r : result A) (f : A → result B) : result B :=
  match r with
  | Ok a => f a
  | Raise e => Raise e
  end.

(** ** The logger *)

Inductive log_level : Type := INFO | WARNING | ERROR.

(** The value of a keyword field of a structured log record. *)
Inductive log_field : Type :=
  | FText (s : string)
  | FNames (ks : list string)
  | FMasked (d : list (string * string))
  | FValue (v : pyval)
  | FStrOfExn (e : exn).        (* [str(e)] *)

Record log_event : Type := LogEvent {
  ev_level : log_level;
  ev_message : string;
  ev_fields : list (string * log_field)
}.

(** ** Computations that log and may raise *)

Definition M (A : Type) : Type := (list log_event * result A)%type.

Definition ret {A} (a : A) : M A := ([], Ok a).
Definition raise {A} (e : exn) : M A := ([], Raise e).
Definition lift {A} (r : result A) : M A := ([], r).
Definition emit (lvl : log_level) (msg : string)
    (fields : list (string * log_field)) : M unit :=
  ([LogEvent lvl msg fields], Ok tt).

Definition bind {A B} (m : M A) (f : A → M B) : M B :=
  match m with
  | (l, Ok a) => let '(l', r) := f a in (l ++ l', r)
  | (l, Raise e) => (l, Raise e)
  end.

(** [try: body except Exception as e: handler e] *)
Definition try_except {A} (body : M A) (handler : exn → M A) : M A :=
  match body with
  | (l, Raise e) => let '(l', r) := handler e in (l ++ l', r)
  | (l, Ok a) => (l, Ok a)
  end.

Declare Scope py_scope.
Delimit Scope py_scope with py.
Notation "x <- m ;; k" := (bind m (λ x, k))
  (at level 100, m at next level, right associativity) : py_scope.
Notation "m ;;; k" := (bind m (λ _, k))
  (at level 100, right associativity) : py_scope.
Notation "x <~ r ;; k" := (result_bind r (λ x, k))
  (at level 100, r at next level, right associativity) : py_scope.

(** [for x in xs: s = body s x] *)
Fixpoint for_each {S K} (body : S → K → M S) (xs : list K) (s : S) : M S :=
  match xs with
  | [] => ret s
  | x :: rest => bind (body s x) (for_each body rest)
  end.

(** ** The Python runtime

    What the source takes from the interpreter and its standard library
    and does not define itself. *)
Class PyRuntime : Type := {
  (** [json.loads]: the decoded value, or the exception it raises. *)
  json_loads : string → result pyval;
  (** The text an f-string substitutes for [{v}]. *)
  py_format : pyval → string;
  py_format_str : ∀ s, py_format (VStr s) = s;
  (** What [d[:6]] raises on a dict [d]: a [TypeError] (unhashable slice)
      up to Python 3.11, a [KeyError] from 3.12 on. *)
  dict_slice_error : exn
}.

(** The model-provider SDKs: constructor-style factories that return a
    client or raise. *)
Class LangChain : Type := {
  client : Type;
  (** [GoogleGenerativeAIEmbeddings(model=, google_api_key=)] *)
  GoogleGenerativeAIEmbeddings : pyval → pyval → result client;
  (** [ChatGoogleGenerativeAI(model=, google_api_key=, temperature=,
      max_output_tokens=)] *)
  ChatGoogleGenerativeAI : pyval → pyval → pyval → pyval → result client;
  (** [ChatGroq(model=, api_key=, temperature=)] *)
  ChatGroq : pyval → pyval → pyval → result client;
  (** [ChatOpenAI(model=, api_key=, temperature=, max_tokens=)] *)
  ChatOpenAI : pyval → pyval → pyval → pyval → result client
}.

(** [os.getenv(name)] *)
Definition os_getenv (env : gmap string string) (name : string) : option string :=
  env !! name.

(** [os.getenv(name, dflt)] *)
Definition os_getenv_or (env : gmap string string) (name dflt : string) : string :=
  default dflt (env !! name).

(** [if s:] on a [str] *)
Definition str_truthy (s : string) : bool := negb (String.eqb s "").

(** ** [class ApiKeyManager] *)

Module ApiKeyManager.
Section ApiKeyManager.
Context `{!PyRuntime}.
#[local] Open Scope py_scope.

Definition REQUIRED_KEYS : list string :=
  ["GROQ_API_KEY"; "GOOGLE_API_KEY"; "OPENAI_API_KEY"].

(** [not self.api_keys.get(key)] *)
Definition unset (api_keys : dict) (key : string) : bool :=
  negb (py_truthy (dict_get_or api_keys key VNone)).

(** Lines 25-48: the empty store, then the combined secret.  The result
    is the value of [self.api_keys] when the block is left. *)
Definition load_combined (env : gmap string string) : M dict :=
  let api_keys : dict := [] in
  match os_getenv env "API_KEYS" with
  | Some raw =>
      if str_truthy raw then
        try_except
          (parsed <- lift (json_loads raw) ;;
           match parsed with
           | VDict d =>
               emit INFO "Loaded API_KEYS from ECS secret" [] ;;;
               ret d
           | _ => raise (Exn ValueError "API_KEYS is not a valid JSON object" None)
           end)
          (λ e,
             emit WARNING "Failed to parse API_KEYS as JSON"
               [("error", FStrOfExn e)] ;;;
             ret api_keys)
      else ret api_keys
  | None => ret api_keys
  end.

(** Lines 57-61: the body of the fallback loop. *)
Definition fallback (env : gmap string string) (api_keys : dict)
    (key : string) : M dict :=
  if unset api_keys key then
    match os_getenv env key with
    | Some env_val =>
        if str_truthy env_val then
          emit INFO ("Loaded " +:+ key +:+ " from individual env var") [] ;;;
          ret (dict_set api_keys key (VStr env_val))
        else ret api_keys
    | None => ret api_keys
    end
  else ret api_keys.

(** Lines 25-61: [self.api_keys] after both passes. *)
Definition gather (env : gmap string string) : M dict :=
  api_keys <- load_combined env ;;
  for_each (fallback env) REQUIRED_KEYS api_keys.

(** Line 64 *)
Definition missing_keys (api_keys : dict) : list string :=
  List.filter (unset api_keys) REQUIRED_KEYS.

(** [v[:6] + "..."] *)
Definition mask (v : pyval) : result string :=
  match v with
  | VStr s => Ok (slice_upto 6 s +:+ "...")
  | VList _ => Raise (Exn TypeError "can only concatenate list to list" None)
  | VDict _ => Raise dict_slice_error
  | _ => Raise (Exn TypeError "object is not subscriptable" None)
  end.

(** [{k: v[:6] + "..." for k, v in items}] *)
Fixpoint mask_items (items : dict) : result (list (string * string)) :=
  match items with
  | [] => Ok []
  | (k, v) :: rest =>
      s <~ mask v ;;
      r <~ mask_items rest ;;
      Ok ((k, s) :: r)
  end.

(** Lines 63-71: the final check and the success record. *)
Definition check_and_report (api_keys : dict) : M dict :=
  let missing := missing_keys api_keys in
  match missing with
  | _ :: _ =>
      emit ERROR "Missing required API keys" [("missing_keys", FNames missing)] ;;;
      raise (Exn DocumentPortalException "Missing API keys" None)
  | [] =>
      masked <- lift (mask_items api_keys) ;;
      emit INFO "API keys loaded" [("keys", FMasked masked)] ;;;
      ret api_keys
  end.

(** [ApiKeyManager()]: the instance is its [api_keys] dictionary. *)
Definition __init__ (env : gmap string string) : M dict :=
  api_keys <- gather env ;;
  check_and_report api_keys.

(** [self.get(key)] *)
Definition get (api_keys : dict) (key : string) : result pyval :=
  let val := dict_get_or api_keys key VNone in
  if negb (py_truthy val) then
    Raise (Exn KeyError ("API key for " +:+ key +:+ " is missing") None)
  else Ok val.

End ApiKeyManager.
End ApiKeyManager.

(** ** Subscripting, membership and [.get] on an arbitrary value

    The configuration comes from a YAML file, so nothing forces a block
    to be a mapping; these are the operations [load_embeddings] and
    [load_llm] apply to it, with a [str] key. *)

(** [v[key]] *)
Definition py_getitem (v : pyval) (key : string) : result pyval :=
  match v with
  | VDict d =>
      match dict_get d key with
      | Some x => Ok x
      | None => Raise (Exn KeyError key None)
      end
  | VStr _ | VList _ => Raise (Exn TypeError "indices must be integers" None)
  | _ => Raise (Exn TypeError "object is not subscriptable" None)
  end.

(** [key in v] *)
Definition py_in (key : string) (v : pyval) : result bool :=
  match v with
  | VDict d => Ok (dict_contains d key)
  | VList l => Ok (existsb (λ x, py_eq_str x key) l)
  | VStr s => Ok (str_contains key s)
  | _ => Raise (Exn TypeError "argument is not iterable" None)
  end.

(** [v.get(key, dflt)] *)
Definition py_get (v : pyval) (key : string) (dflt : pyval) : result pyval :=
  match v with
  | VDict d => Ok (dict_get_or d key dflt)
  | _ => Raise (Exn AttributeError "object has no attribute 'get'" None)
  end.

(** [list(v.keys())] *)
Definition py_keys (v : pyval) : result (list string) :=
  match v with
  | VDict d => Ok (d.*1)
  | _ => Raise (Exn AttributeError "object has no attribute 'keys'" None)
  end.

(** [c.lower()] for one character below U+0100: the letters [A]-[Z]
    and the capital letters of Latin-1 ([U+00C0]-[U+00DE] without the
    multiplication sign) move up by 32, every other character stays. *)
Definition lower_char (c : ascii) : ascii :=
  let n := nat_of_ascii c in
  if ((65 <=? n) && (n <=? 90)) || ((192 <=? n) && (n <=? 214)) ||
     ((216 <=? n) && (n <=? 222))
  then ascii_of_nat (n + 32)
  else c.

(** [s.lower()] *)
Fixpoint py_lower (s : string) : string :=
  match s with
  | EmptyString => EmptyString
  | String c rest => String (lower_char c) (py_lower rest)
  end.

(** What [ModelLoader.__init__] calls and the source does not define:
    [load_dotenv] of python-dotenv, as the change it makes to
    [os.environ], and [load_config] of [utils.config_loader], which may
    read the environment and returns the configuration or raises. *)
Class Startup : Type := {
  load_dotenv : gmap string string → gmap string string;
  load_config : gmap string string → result pyval
}.

(** ** [class ModelLoader] *)

Module ModelLoader.

(** The instance: the credential resolver and the loaded configuration. *)
Record t : Type := Build {
  api_key_mgr : dict;
  config : pyval
}.

Section ModelLoader.
Context `{!PyRuntime} `{!LangChain}.
#[local] Open Scope py_scope.

(** [self.config["embedding_model"]["model_name"]] *)
Definition embedding_model_name (self : t) : result pyval :=
  embedding_model <~ py_getitem (config self) "embedding_model" ;;
  py_getitem embedding_model "model_name".

Definition load_embeddings (self : t) : M client :=
  try_except
    (model_name <- lift (embedding_model_name self) ;;
     emit INFO "Loading embedding model" [("model", FValue model_name)] ;;;
     google_api_key <- lift (ApiKeyManager.get (api_key_mgr self) "GOOGLE_API_KEY") ;;
     lift (GoogleGenerativeAIEmbeddings model_name google_api_key))
    (λ e,
       emit ERROR "Error loading embedding model" [("error", FStrOfExn e)] ;;;
       raise (Exn DocumentPortalException "Failed to load embedding model" (Some e))).

Definition load_llm (self : t) (env : gmap string string) : M client :=
  llm_block <- lift (py_getitem (config self) "llm") ;;
  let provider_key := os_getenv_or env "LLM_PROVIDER" "openai" in
  found <- lift (py_in provider_key llm_block) ;;
  if negb found then
    emit ERROR "LLM provider not found in config" [("provider", FText provider_key)] ;;;
    raise (Exn ValueError ("LLM provider '" +:+ provider_key +:+ "' not found in config") None)
  else
    llm_config <- lift (py_getitem llm_block provider_key) ;;
    provider <- lift (py_get llm_config "provider" VNone) ;;
    model_name <- lift (py_get llm_config "model_name" VNone) ;;
    temperature <- lift (py_get llm_config "temperature" (VFloat 0.2)) ;;
    max_tokens <- lift (py_get llm_config "max_output_tokens" (VInt 2048)) ;;
    emit INFO "Loading LLM" [("provider", FValue provider); ("model", FValue model_name)] ;;;
    if py_eq_str provider "google" then
      google_api_key <- lift (ApiKeyManager.get (api_key_mgr self) "GOOGLE_API_KEY") ;;
      lift (ChatGoogleGenerativeAI model_name google_api_key temperature max_tokens)
    else if py_eq_str provider "groq" then
      api_key <- lift (ApiKeyManager.get (api_key_mgr self) "GROQ_API_KEY") ;;
      lift (ChatGroq model_name api_key temperature)
    else if py_eq_str provider "openai" then
      api_key <- lift (ApiKeyManager.get (api_key_mgr self) "OPENAI_API_KEY") ;;
      lift (ChatOpenAI model_name api_key temperature max_tokens)
    else
      emit ERROR "Unsupported LLM provider" [("provider", FValue provider)] ;;;
      raise (Exn ValueError ("Unsupported LLM provider: " +:+ py_format provider) None).

Context `{!Startup}.

(** [os.getenv("ENV", "local").lower() != "production"] *)
Definition local_mode (env : gmap string string) : bool :=
  negb (String.eqb (py_lower (os_getenv_or env "ENV" "local")) "production").

(** [ModelLoader()]: the instance, together with [os.environ] as the
    constructor leaves it. *)
Definition __init__ (env : gmap string string) : M (gmap string string * t) :=
  env <- (if local_mode env then
            let env := load_dotenv env in
            emit INFO "Running in LOCAL mode: .env loaded" [] ;;;
            ret env
          else
            emit INFO "Running in PRODUCTION mode" [] ;;;
            ret env) ;;
  api_key_mgr <- ApiKeyManager.__init__ env ;;
  config <- lift (load_config env) ;;
  config_keys <- lift (py_keys config) ;;
  emit INFO "YAML config loaded" [("config_keys", FNames config_keys)] ;;;
  ret (env, Build api_key_mgr config).

End ModelLoader.
End ModelLoader.

(** The environment the credential resolver of a [ModelLoader] reads:
    [os.environ] after [load_dotenv] in local mode, as it was in
    production mode. *)
Definition resolver_env `{!Startup} (env : gmap string string) : gmap string string :=
  if ModelLoader.local_mode env then load_dotenv env else env.

(** ** [setup.py] *)

Module Setup.

(** [c.isspace()] for one character below U+0100. *)
Definition is_space (c : ascii) : bool :=
  let n := nat_of_ascii c in
  ((9 <=? n) && (n <=? 13)) || ((28 <=? n) && (n <=? 32)) ||
  (n =? 133) || (n =? 160).

(** [s.lstrip()] *)
Fixpoint lstrip (s : string) : string :=
  match s with
  | String c rest => if is_space c then lstrip rest else s
  | EmptyString => EmptyString
  end.

(** [s.rstrip()] *)
Fixpoint rstrip (s : string) : string :=
  match s with
  | String c rest =>
      match rstrip rest with
      | EmptyString => if is_space c then EmptyString else String c EmptyString
      | kept => String c kept
      end
  | EmptyString => EmptyString
  end.

(** [s.strip()] *)
Definition strip (s : string) : string := rstrip (lstrip s).

Definition newline : ascii := "010"%char.

(** The lines a text file yields when it is iterated: each keeps its
    line end, the last one may lack it.  [text] is the decoded content,
    line ends already translated to the newline character. *)
Fixpoint file_lines (text : string) : list string :=
  match text with
  | EmptyString => []
  | String c rest =>
      if Ascii.eqb c newline then String c EmptyString :: file_lines rest
      else match file_lines rest with
           | [] => [String c EmptyString]
           | line :: lines => String c line :: lines
           end
  end.

(** The condition of the comprehension. *)
Definition is_requirement (line : string) : bool :=
  negb (String.eqb (strip line) "") && negb (String.prefix "#" line) &&
  negb (String.prefix "-e" line).

(** [parse_requirements(filename)], on the content of the file. *)
Definition parse_requirements (text : string) : list string :=
  strip <$> List.filter is_requirement (file_lines text).

End Setup.

(** ** What the two credential sources provide *)

Section Sources.
Context `{!PyRuntime}.

(** The combined secret as the constructor adopts it: the decoded
    [API_KEYS] when that is an object, the empty store otherwise. *)
Definition blob (env : gmap string string) : dict :=
  match env !! "API_KEYS" with
  | Some raw =>
      if str_truthy raw then
        match json_loads raw with
        | Ok (VDict d) => d
        | _ => []
        end
      else []
  | None => []
  end.

(** The individual variable [key], when it is set and not empty. *)
Definition individual (env : gmap string string) (key : string) : option string :=
  match env !! key with
  | Some s => if str_truthy s then Some s else None
  | None => None
  end.

(** The credential the two sources provide for [key]: the blob's value
    when it is truthy, the individual variable otherwise. *)
Definition provided (env : gmap string string) (key : string) : option pyval :=
  match dict_get (blob env) key with
  | Some v => if py_truthy v then Some v else VStr <$> individual env key
  | None => VStr <$> individual env key
  end.

(** The required key-names that neither source provides. *)
Definition missing_from_sources (env : gmap string string) : list string :=
  List.filter (λ k, match provided env k with None => true | Some _ => false end)
    ApiKeyManager.REQUIRED_KEYS.

End Sources.

(** ** The situations [load_llm] distinguishes *)

Section Situations.
Context `{!PyRuntime} `{!LangChain}.
Import ModelLoader.

(** The requested provider key is not in the [llm] block. *)
Definition provider_key_absent (self : ModelLoader.t) (env : gmap string string) : Prop :=
  ∃ llm_block,
    py_getitem (config self) "llm" = Ok llm_block ∧
    py_in (os_getenv_or env "LLM_PROVIDER" "openai") llm_block = Ok false.

(** The selected entry has the provider tag [tag], which is none of the
    three supported ones. *)
Definition provider_tag_unsupported (self : ModelLoader.t) (env : gmap string string)
    (tag : pyval) : Prop :=
  ∃ llm_block llm_config,
    py_getitem (config self) "llm" = Ok llm_block ∧
    py_in (os_getenv_or env "LLM_PROVIDER" "openai") llm_block = Ok true ∧
    py_getitem llm_block (os_getenv_or env "LLM_PROVIDER" "openai") = Ok llm_config ∧
    py_get llm_config "provider" VNone = Ok tag ∧
    py_eq_str tag "google" = false ∧ py_eq_str tag "groq" = false ∧
    py_eq_str tag "openai" = false.

(** [r] is what the chat factory selected by the provider tag returned
    or raised, called with the model name, temperature and token budget
    of the requested entry and the credential the store holds for the
    factory's key-name. *)
Definition selected_call (self : ModelLoader.t) (env : gmap string string)
    (r : result client) : Prop :=
  ∃ llm_block entry api_key,
    py_getitem (config self) "llm" = Ok llm_block ∧
    py_getitem llm_block (os_getenv_or env "LLM_PROVIDER" "openai") = Ok (VDict entry) ∧
    py_truthy api_key = true ∧
    let provider := dict_get_or entry "provider" VNone in
    let model_name := dict_get_or entry "model_name" VNone in
    let temperature := dict_get_or entry "temperature" (VFloat 0.2) in
    let max_tokens := dict_get_or entry "max_output_tokens" (VInt 2048) in
    (py_eq_str provider "google" = true ∧
     dict_get (api_key_mgr self) "GOOGLE_API_KEY" = Some api_key ∧
     r = ChatGoogleGenerativeAI model_name api_key temperature max_tokens) ∨
    (py_eq_str provider "groq" = true ∧
     dict_get (api_key_mgr self) "GROQ_API_KEY" = Some api_key ∧
     r = ChatGroq model_name api_key temperature) ∨
    (py_eq_str provider "openai" = true ∧
     dict_get (api_key_mgr self) "OPENAI_API_KEY" = Some api_key ∧
     r = ChatOpenAI model_name api_key temperature max_tokens).

(** No chat factory raises a [ValueError]. *)
Definition factories_raise_no_ValueError : Prop :=
  ∀ model api_key temperature max_tokens e,
    ChatGoogleGenerativeAI model api_key temperature max_tokens = Raise e ∨
    ChatGroq model api_key temperature = Raise e ∨
    ChatOpenAI model api_key temperature max_tokens = Raise e →
    exn_cls e ≠ ValueError.

(** [r] is an error of another class than [ValueError]. *)
Definition other_error (r : result client) : Prop :=
  ∃ e, r = Raise e ∧ exn_cls e ∈ [KeyError; TypeError; AttributeError].

(** An exception [e] is raised inside the [try] block of
    [load_embeddings]: by the configuration access, by the key lookup,
    or by the factory. *)
Definition raised_in_load_embeddings (self : ModelLoader.t) (e : exn) : Prop :=
  embedding_model_name self = Raise e ∨
  (∃ model_name,
     embedding_model_name self = Ok model_name ∧
     ApiKeyManager.get (api_key_mgr self) "GOOGLE_API_KEY" = Raise e) ∨
  (∃ model_name google_api_key,
     embedding_model_name self = Ok model_name ∧
     ApiKeyManager.get (api_key_mgr self) "GOOGLE_API_KEY" = Ok google_api_key ∧
     GoogleGenerativeAIEmbeddings model_name google_api_key = Raise e).

End Situations.

(** [msg] mentions, among the required key-names, exactly those of [names]. *)
Definition lists_exactly (msg : string) (names : list string) : Prop :=
  ∀ k, k ∈ ApiKeyManager.REQUIRED_KEYS → str_contains k msg = true ↔ k ∈ names.

(** A masked value shows the whole secret only when the secret has nine
    characters of which the last three are dots. *)
Definition looks_masked (s : string) : Prop :=
  String.length s = 9 ∧ String.substring 6 3 s = "...".

(** ** A runtime for concrete evaluation

    The properties below hold for every [PyRuntime] and [LangChain].  To
    evaluate the model on concrete environments we fix one of each: a
    decoder for the fragment of JSON made of objects, arrays, strings
    without escapes, integers, [true], [false] and [null] (any other
    text is reported as a decoding error), and factories that return a
    record of the arguments they were called with. *)

Module Concrete.

Definition dquote : Ascii.ascii := "034"%char.

(** [s] between double quotes. *)
Definition quoted (s : string) : string :=
  String dquote s +:+ String dquote "".

Definition is_ws (c : Ascii.ascii) : bool :=
  (Ascii.eqb c " " || Ascii.eqb c "009" || Ascii.eqb c "010" || Ascii.eqb c "013")%char.

Fixpoint skip_ws (s : string) : string :=
  match s with
  | String c rest => if is_ws c then skip_ws rest else s
  | EmptyString => s
  end.

Definition digit_of (c : Ascii.ascii) : option Z :=
  let n := Ascii.nat_of_ascii c in
  if (48 <=? n)%nat && (n <=? 57)%nat then Some (Z.of_nat (n - 48)) else None.

(** The digits at the head of [s], accumulated onto [acc]. *)
Fixpoint digits (acc : Z) (s : string) : Z * string :=
  match s with
  | String c rest =>
      match digit_of c with
      | Some d => digits (10 * acc + d) rest
      | None => (acc, s)
      end
  | EmptyString => (acc, s)
  end.

(** [0] or a digit sequence without leading zero. *)
Definition natural (s : string) : option (Z * string) :=
  match s with
  | String c rest =>
      match digit_of c with
      | Some 0%Z => Some (0%Z, rest)
      | Some d => Some (digits d rest)
      | None => None
      end
  | EmptyString => None
  end.

(** The characters up to the closing quote; escapes and control
    characters are outside the fragment. *)
Fixpoint chars (s : string) : option (string * string) :=
  match s with
  | String c rest =>
      if Ascii.eqb c dquote then Some ("", rest)
      else if Ascii.eqb c "\"%char || (Ascii.nat_of_ascii c <? 32)%nat then None
      else '(body, rest') ← chars rest; Some (String c body, rest')
  | EmptyString => None
  end.

Definition keyword (kw : string) (v : pyval) (s : string) : option (pyval * string) :=
  if String.prefix kw s
  then Some (v, String.substring (String.length kw) (String.length s) s)
  else None.

Fixpoint value (fuel : nat) (s : string) : option (pyval * string) :=
  match fuel with
  | O => None
  | S fuel =>
      match skip_ws s with
      | String "{" rest =>
          match skip_ws rest with
          | String "}" rest' => Some (VDict [], rest')
          | _ => '(d, rest') ← members fuel [] rest; Some (VDict d, rest')
          end
      | String "[" rest =>
          match skip_ws rest with
          | String "]" rest' => Some (VList [], rest')
          | _ => '(l, rest') ← elements fuel rest; Some (VList l, rest')
          end
      | String "-" rest => '(n, rest') ← natural rest; Some (VInt (- n), rest')
      | String c rest as s' =>
          if Ascii.eqb c dquote then '(body, rest') ← chars rest; Some (VStr body, rest')
          else if Ascii.eqb c "n" then keyword "null" VNone s'
          else if Ascii.eqb c "t" then keyword "true" (VBool true) s'
          else if Ascii.eqb c "f" then keyword "false" (VBool false) s'
          else '(n, rest') ← natural s'; Some (VInt n, rest')
      | EmptyString => None
      end
  end
with members (fuel : nat) (acc : dict) (s : string) : option (dict * string) :=
  match fuel with
  | O => None
  | S fuel =>
      match skip_ws s with
      | String c rest =>
          if Ascii.eqb c dquote then
            '(k, rest1) ← chars rest;
            match skip_ws rest1 with
            | String ":" rest2 =>
                '(v, rest3) ← value fuel rest2;
                let acc := dict_set acc k v in
                match skip_ws rest3 with
                | String "," rest4 => members fuel acc rest4
                | String "}" rest4 => Some (acc, rest4)
                | _ => None
                end
            | _ => None
            end
          else None
      | EmptyString => None
      end
  end
with elements (fuel : nat) (s : string) : option (list pyval * string) :=
  match fuel with
  | O => None
  | S fuel =>
      '(v, rest) ← value fuel s;
      match skip_ws rest with
      | String "," rest' => '(l, rest'') ← elements fuel rest'; Some (v :: l, rest'')
      | String "]" rest' => Some ([v], rest')
      | _ => None
      end
  end.

Definition decode (s : string) : result pyval :=
  match value (S (String.length s)) s with
  | Some (v, rest) =>
      match skip_ws rest with
      | EmptyString => Ok v
      | _ => Raise (Exn (OtherException "JSONDecodeError") "Extra data" None)
      end
  | None => Raise (Exn (OtherException "JSONDecodeError") "Expecting value" None)
  end.

(** [str(v)] for the scalar values; a container or a float is shown by
    its type name only. *)
Definition format (v : pyval) : string :=
  match v with
  | VNone => "None"
  | VBool true => "True"
  | VBool false => "False"
  | VInt z => pretty z
  | VStr s => s
  | VFloat _ => "<float>"
  | VList _ => "<list>"
  | VDict _ => "<dict>"
  end.

#[export] Instance runtime : PyRuntime := {|
  json_loads := decode;
  py_format := format;
  py_format_str := λ s, eq_refl;
  dict_slice_error := Exn KeyError "slice(None, 6, None)" None
|}.

(** The call a factory received. *)
Inductive call : Type :=
  | EmbeddingsCall (model google_api_key : pyval)
  | GoogleChatCall (model google_api_key temperature max_output_tokens : pyval)
  | GroqChatCall (model api_key temperature : pyval)
  | OpenAIChatCall (model api_key temperature max_tokens : pyval).

#[export] Instance sdk : LangChain := {|
  client := call;
  GoogleGenerativeAIEmbeddings m k := Ok (EmbeddingsCall m k);
  ChatGoogleGenerativeAI m k t n := Ok (GoogleChatCall m k t n);
  ChatGroq m k t := Ok (GroqChatCall m k t);
  ChatOpenAI m k t n := Ok (OpenAIChatCall m k t n)
|}.

(** An SDK whose OpenAI factory rejects its arguments with a
    [ValueError], as a validating constructor does. *)
Definition sdk_rejecting : LangChain := {|
  client := call;
  GoogleGenerativeAIEmbeddings m k := Ok (EmbeddingsCall m k);
  ChatGoogleGenerativeAI m k t n := Ok (GoogleChatCall m k t n);
  ChatGroq m k t := Ok (GroqChatCall m k t);
  ChatOpenAI m k t n := Raise (Exn ValueError "1 validation error for ChatOpenAI" None)
|}.

(** The example of the source: a combined secret with two of the keys. *)
Definition two_keys_blob : string :=
  "{" +:+ quoted "GROQ_API_KEY" +:+ ":" +:+ quoted "groq-abc" +:+ ","
      +:+ quoted "GOOGLE_API_KEY" +:+ ":" +:+ quoted "g-google-xyz" +:+ "}".

(** That secret, with the third key as an individual variable. *)
Definition env_two_and_one : gmap string string :=
  <["API_KEYS" := two_keys_blob]> (<["OPENAI_API_KEY" := "sk-ABCDEFGH"]> ∅).

(** Only one of the three keys, as an individual variable. *)
Definition env_groq_only : gmap string string :=
  <["GROQ_API_KEY" := "groq-abc"]> ∅.

(** Three individual variables, one of which ends in three dots. *)
Definition env_dotted : gmap string string :=
  <["GROQ_API_KEY" := "sk-ABC..."]>
    (<["GOOGLE_API_KEY" := "g-google-xyz"]> (<["OPENAI_API_KEY" := "sk-ABCDEFGH"]> ∅)).

(** Three individual variables and a combined secret that is not JSON. *)
Definition env_malformed : gmap string string :=
  <["API_KEYS" := "not json"]>
    (<["GROQ_API_KEY" := "groq-abc"]>
       (<["GOOGLE_API_KEY" := "g-google-xyz"]> (<["OPENAI_API_KEY" := "sk-ABCDEFGH"]> ∅))).



(** A combined secret with a key-name that is not required. *)
Definition extra_key_blob : string :=
  "{" +:+ quoted "GROQ_API_KEY" +:+ ":" +:+ quoted "groq-abc" +:+ ","
      +:+ quoted "HF_TOKEN" +:+ ":" +:+ quoted "hf-secret-123" +:+ "}".

Definition env_extra : gmap string string :=
  <["API_KEYS" := extra_key_blob]>
    (<["GOOGLE_API_KEY" := "g-google-xyz"]> (<["OPENAI_API_KEY" := "sk-ABCDEFGH"]> ∅)).

(** A combined secret with one of the keys and a further entry that is
    [null], the two other keys being set as variables. *)
Definition null_note_blob : string :=
  "{" +:+ quoted "GROQ_API_KEY" +:+ ":" +:+ quoted "groq-abc" +:+ ","
      +:+ quoted "NOTE" +:+ ":null}".

Definition env_null_note : gmap string string :=
  <["API_KEYS" := null_note_blob]>
    (<["GOOGLE_API_KEY" := "g-google-xyz"]> (<["OPENAI_API_KEY" := "sk-ABCDEFGH"]> ∅)).

(** A combined secret that gives [GROQ_API_KEY] a number. *)
Definition numeric_groq_blob : string :=
  "{" +:+ quoted "GROQ_API_KEY" +:+ ": 123}".

Definition env_numeric : gmap string string :=
  <["API_KEYS" := numeric_groq_blob]>
    (<["GOOGLE_API_KEY" := "g-google-xyz"]> (<["OPENAI_API_KEY" := "sk-ABCDEFGH"]> ∅)).

(** The credential set construction yields on [env_two_and_one]. *)
Definition three_keys : dict :=
  [("GROQ_API_KEY", VStr "groq-abc"); ("GOOGLE_API_KEY", VStr "g-google-xyz");
   ("OPENAI_API_KEY", VStr "sk-ABCDEFGH")].

(** The [openai] entry of the specification's example. *)
Definition openai_entry : dict :=
  [("provider", VStr "openai"); ("model_name", VStr "gpt-x");
   ("temperature", VFloat 0.1)].

Definition llm_block : dict := [("openai", VDict openai_entry)].

Definition config_openai : pyval :=
  VDict [("embedding_model", VDict [("model_name", VStr "models/text-embedding-004")]);
         ("llm", VDict llm_block)].

Definition loader : ModelLoader.t := ModelLoader.Build three_keys config_openai.

(** A loader whose configuration has no [embedding_model] block, and
    whose [openai] entry carries an unknown provider tag. *)
Definition config_unknown_tag : pyval :=
  VDict [("llm", VDict [("openai", VDict [("provider", VStr "mistral")])])].

Definition loader_unknown_tag : ModelLoader.t :=
  ModelLoader.Build three_keys config_unknown_tag.

Definition env_mistral : gmap string string := <["LLM_PROVIDER" := "mistral"]> ∅.

(** A [.env] file with the three keys; [load_dotenv] leaves the
    variables that are already set as they are. *)
Definition dotenv_file : gmap string string :=
  <["GROQ_API_KEY" := "groq-abc"]>
    (<["GOOGLE_API_KEY" := "g-google-xyz"]> (<["OPENAI_API_KEY" := "sk-ABCDEFGH"]> ∅)).

#[export] Instance startup : Startup := {|
  load_dotenv env := env ∪ dotenv_file;
  load_config _ := Ok config_openai
|}.

(** A startup whose configuration file is empty: the YAML loader
    returns [None]. *)
Definition startup_empty_config : Startup := {|
  load_dotenv env := env ∪ dotenv_file;
  load_config _ := Ok VNone
|}.

Definition env_production : gmap string string := <["ENV" := "PRODUCTION"]> ∅.

(** A startup without [.env] file. *)
Definition startup_no_dotenv : Startup := {|
  load_dotenv env := env;
  load_config _ := Ok config_openai
|}.

(** The environment of the source's example with one more variable. *)
Definition env_with_home : gmap string string :=
  <["HOME" := "/root"]> env_two_and_one.

(** Three individual variables, one of them with three characters. *)
Definition env_short : gmap string string :=
  <["GROQ_API_KEY" := "abc"]>
    (<["GOOGLE_API_KEY" := "g-google-xyz"]> (<["OPENAI_API_KEY" := "sk-ABCDEFGH"]> ∅)).

Definition env_empty_provider : gmap string string := <["LLM_PROVIDER" := ""]> ∅.

(** Two blank lines. *)
Definition blank_txt : string :=
  "  " +:+ String Setup.newline (String Setup.newline "").

(** A requirements file with a comment, an editable install, a blank
    line, an indented comment and a last line without line end. *)
Definition requirements_txt : string :=
  "# pinned" +:+ String Setup.newline
    ("langchain==0.3.0  " +:+ String Setup.newline
       ("-e ." +:+ String Setup.newline
          (String Setup.newline
             ("  # optional" +:+ String Setup.newline "pytest")))).

End Concrete.

(** * Properties *)

(** ** Dictionaries and strings *)

Lemma dict_get_set_eq (d : dict) k v : dict_get (dict_set d k v) k = Some v.
Proof.
  induction d as [|[k' x] d IH]; simpl.
  - by rewrite String.eqb_refl.
  - destruct (String.eqb k' k) eqn:E; simpl; by rewrite E.
Qed.

Lemma dict_get_set_ne (d : dict) k k' v :
  k ≠ k' → dict_get (dict_set d k v) k' = dict_get d k'.
Proof.
  intros Hne. induction d as [|[k0 x] d IH]; simpl.
  - by destruct (String.eqb_spec k k').
  - destruct (String.eqb_spec k0 k) as [->|]; simpl.
    + by destruct (String.eqb_spec k k').
    + by rewrite IH.
Qed.

Lemma dict_get_elem_of (d : dict) k v : dict_get d k = Some v → (k, v) ∈ d.
Proof.
  induction d as [|[k0 x] d IH]; simpl; [done|].
  destruct (String.eqb_spec k0 k) as [->|].
  - intros [= ->]. left.
  - intros H. right. auto.
Qed.

Lemma str_truthy_true s : str_truthy s = true ↔ s ≠ "".
Proof. unfold str_truthy. destruct (String.eqb_spec s ""); naive_solver. Qed.

Lemma str_truthy_false s : str_truthy s = false ↔ s = "".
Proof. unfold str_truthy. destruct (String.eqb_spec s ""); naive_solver. Qed.

Lemma slice_upto_masked_eq s :
  slice_upto 6 s +:+ "..." = s ↔ looks_masked s.
Proof.
  unfold looks_masked.
  do 9 (destruct s as [|? s]; simpl; [split; [intros [=] | intros [[=] _]]|]).
  destruct s as [|? s]; simpl.
  - split; [by intros [= -> -> ->] | by intros [_ [= -> -> ->]]].
  - split; [intros [=] | intros [[=] _]].
Qed.

(** ** The monad *)

Lemma bind_Ok {A B} (m : M A) (f : A → M B) l a :
  m = (l, Ok a) → bind m f = (l ++ (f a).1, (f a).2).
Proof. intros ->. simpl. by destruct (f a). Qed.

Lemma for_each_ext {S K} (f g : S → K → M S) (xs : list K) (s : S) :
  (∀ s x, x ∈ xs → f s x = g s x) → for_each f xs s = for_each g xs s.
Proof.
  revert s. induction xs as [|x xs IH]; intros s Hfg; simpl; [done|].
  rewrite Hfg by left. destruct (g s x) as [l [s'|e]]; simpl; [|done].
  rewrite IH; [done|]. intros. apply Hfg. by right.
Qed.

(** ** The credential resolver *)

Section ApiKeyManagerFacts.
Context `{!PyRuntime}.
Import ApiKeyManager.

Lemma unset_set_str d k s : s ≠ "" → unset (dict_set d k (VStr s)) k = false.
Proof.
  intros Hs. unfold unset, dict_get_or. rewrite dict_get_set_eq. simpl.
  apply str_truthy_true in Hs. unfold str_truthy in Hs. by rewrite Hs.
Qed.

Lemma unset_set_ne d k k' v : k ≠ k' → unset (dict_set d k v) k' = unset d k'.
Proof. intros. unfold unset, dict_get_or. by rewrite dict_get_set_ne. Qed.

Lemma individual_Some env k s : individual env k = Some s ↔ env !! k = Some s ∧ s ≠ "".
Proof.
  unfold individual. destruct (env !! k) as [s'|]; [|by split; [|intros []]].
  destruct (str_truthy s') eqn:E.
  - apply str_truthy_true in E. split.
    + by intros [= <-].
    + by intros [[= <-] _].
  - apply str_truthy_false in E. split; [done|]. intros [[= <-] Hne]. by destruct Hne.
Qed.

(** The combined secret never makes the constructor fail. *)
Lemma load_combined_blob env : ∃ log, load_combined env = (log, Ok (blob env)).
Proof.
  unfold load_combined, blob, os_getenv.
  destruct (env !! "API_KEYS") as [raw|]; [|by eexists].
  destruct (str_truthy raw); [|by eexists].
  destruct (json_loads raw) as [[]|]; by eexists.
Qed.

(** One round of the fallback loop. *)
Lemma fallback_step env d k :
  ∃ log, fallback env d k =
    (log, Ok (match individual env k with
              | Some s => if unset d k then dict_set d k (VStr s) else d
              | None => d
              end)).
Proof.
  unfold fallback, individual, os_getenv.
  destruct (unset d k), (env !! k) as [s|]; try by eexists.
  - destruct (str_truthy s); by eexists.
  - destruct (str_truthy s); by eexists.
Qed.

(** The fallback loop over any list of key-names: it does not raise,
    and it changes exactly the entries of the listed names that were
    unset and have a non-empty variable. *)
Lemma fallback_loop env ks d :
  ∃ log d', for_each (fallback env) ks d = (log, Ok d') ∧
    ∀ k, dict_get d' k =
      if bool_decide (k ∈ ks) && unset d k
      then match individual env k with
           | Some s => Some (VStr s)
           | None => dict_get d k
           end
      else dict_get d k.
Proof.
  revert d. induction ks as [|a ks IH]; intros d.
  { exists [], d. split; [done|]. intros k. by rewrite bool_decide_eq_false_2 by set_solver. }
  destruct (fallback_step env d a) as [l1 H1].
  set (d1 := match individual env a with
             | Some s => if unset d a then dict_set d a (VStr s) else d
             | None => d end) in H1.
  destruct (IH d1) as (l2 & d' & H2 & Hget).
  exists (l1 ++ l2), d'. split.
  { simpl. rewrite (bind_Ok _ _ _ _ H1), H2. done. }
  intros k. rewrite Hget. clear Hget H2 H1 IH.
  destruct (decide (k = a)) as [->|Hne].
  - rewrite (bool_decide_eq_true_2 (a ∈ a :: ks)) by left. rewrite andb_true_l.
    subst d1. destruct (individual env a) as [s|] eqn:Hind.
    + destruct (unset d a) eqn:Hu.
      * apply individual_Some in Hind as [_ Hs].
        rewrite unset_set_str by done.
        destruct (bool_decide (a ∈ ks)); simpl; apply dict_get_set_eq.
      * rewrite Hu. by destruct (bool_decide (a ∈ ks)).
    + by destruct (bool_decide (a ∈ ks)), (unset d a).
  - assert (bool_decide (k ∈ a :: ks) = bool_decide (k ∈ ks)) as ->.
    { apply bool_decide_ext. rewrite elem_of_cons. split; [by intros [?|?]|by right]. }
    assert (dict_get d1 k = dict_get d k ∧ unset d1 k = unset d k) as [-> ->]; [|done].
    subst d1. destruct (individual env a); [|done].
    destruct (unset d a); [|done].
    by rewrite dict_get_set_ne, unset_set_ne.
Qed.

(** The loop only ever adds entries or overwrites unset ones. *)
Lemma gather_result env :
  ∃ log keys, gather env = (log, Ok keys) ∧
    ∀ k, dict_get keys k =
      if bool_decide (k ∈ REQUIRED_KEYS) && unset (blob env) k
      then match individual env k with
           | Some s => Some (VStr s)
           | None => dict_get (blob env) k
           end
      else dict_get (blob env) k.
Proof.
  destruct (load_combined_blob env) as [l0 H0].
  destruct (fallback_loop env REQUIRED_KEYS (blob env)) as (l1 & keys & H1 & Hget).
  exists (l0 ++ l1), keys. split; [|done].
  unfold gather. by rewrite (bind_Ok _ _ _ _ H0), H1.
Qed.

(** After both passes a required key-name is unset exactly when
    neither source provides it. *)
Lemma unset_after_gather env keys k :
  (∀ k, dict_get keys k =
      if bool_decide (k ∈ REQUIRED_KEYS) && unset (blob env) k
      then match individual env k with
           | Some s => Some (VStr s)
           | None => dict_get (blob env) k
           end
      else dict_get (blob env) k) →
  k ∈ REQUIRED_KEYS →
  unset keys k = match provided env k with None => true | Some _ => false end.
Proof.
  intros Hget Hk. unfold unset at 1, dict_get_or. rewrite Hget.
  rewrite bool_decide_eq_true_2 by done. rewrite andb_true_l.
  unfold provided, unset, dict_get_or.
  assert (∀ s, individual env k = Some s → py_truthy (VStr s) = true) as Hind.
  { intros s [_ Hs%str_truthy_true]%individual_Some. done. }
  destruct (dict_get (blob env) k) as [v|]; simpl.
  - destruct (py_truthy v) eqn:Hv; simpl; [by rewrite Hv|].
    destruct (individual env k) as [s|]; simpl; [|by rewrite Hv].
    specialize (Hind s eq_refl). simpl in Hind. by rewrite Hind.
  - destruct (individual env k) as [s|]; simpl; [|done].
    specialize (Hind s eq_refl). simpl in Hind. by rewrite Hind.
Qed.

Lemma missing_after_gather env keys :
  (∀ k, dict_get keys k =
      if bool_decide (k ∈ REQUIRED_KEYS) && unset (blob env) k
      then match individual env k with
           | Some s => Some (VStr s)
           | None => dict_get (blob env) k
           end
      else dict_get (blob env) k) →
  missing_keys keys = missing_from_sources env.
Proof.
  intros Hget. unfold missing_keys, missing_from_sources.
  apply filter_ext_in. intros k Hk.
  apply (unset_after_gather env keys k Hget). by apply list_elem_of_In.
Qed.

(** The three ways the final check can end. *)
Lemma check_missing keys k ks :
  missing_keys keys = k :: ks →
  check_and_report keys =
    ([LogEvent ERROR "Missing required API keys" [("missing_keys", FNames (k :: ks))]],
     Raise (Exn DocumentPortalException "Missing API keys" None)).
Proof. unfold check_and_report. by intros ->. Qed.

Lemma check_masked keys masked :
  missing_keys keys = [] → mask_items keys = Ok masked →
  check_and_report keys =
    ([LogEvent INFO "API keys loaded" [("keys", FMasked masked)]], Ok keys).
Proof. unfold check_and_report. by intros -> ->. Qed.

Lemma check_unmaskable keys e :
  missing_keys keys = [] → mask_items keys = Raise e →
  check_and_report keys = ([], Raise e).
Proof. unfold check_and_report. by intros -> ->. Qed.

Lemma init_unfold env log keys :
  gather env = (log, Ok keys) →
  __init__ env = (log ++ (check_and_report keys).1, (check_and_report keys).2).
Proof. intros Hg. unfold __init__. by rewrite (bind_Ok _ _ _ _ Hg). Qed.

(** What a successful construction tells. *)
Lemma init_Ok_inv env log keys :
  __init__ env = (log, Ok keys) →
  ∃ log0 masked,
    gather env = (log0, Ok keys) ∧ missing_keys keys = [] ∧
    mask_items keys = Ok masked ∧
    log = log0 ++ [LogEvent INFO "API keys loaded" [("keys", FMasked masked)]].
Proof.
  destruct (gather_result env) as (log0 & keys0 & Hg & _).
  rewrite (init_unfold _ _ _ Hg).
  destruct (missing_keys keys0) as [|k ks] eqn:Hm.
  - destruct (mask_items keys0) as [masked|e] eqn:Hmask.
    + rewrite (check_masked _ _ Hm Hmask). simpl. intros [= <- <-]. by exists log0, masked.
    + by rewrite (check_unmaskable _ _ Hm Hmask).
  - by rewrite (check_missing _ _ _ Hm).
Qed.

(** Masking succeeds exactly on stores of strings, entry by entry. *)
Lemma mask_items_Ok items masked :
  mask_items items = Ok masked →
  Forall2 (λ kv km, km.1 = kv.1 ∧
             ∃ s, kv.2 = VStr s ∧ km.2 = slice_upto 6 s +:+ "...") items masked.
Proof.
  revert masked. induction items as [|[k v] items IH]; intros masked; simpl.
  - intros [= <-]. constructor.
  - destruct v; simpl; try done.
    destruct (mask_items items) as [r|]; simpl; [|done].
    intros [= <-]. constructor; [|by apply IH]. simpl. eauto.
Qed.

Lemma mask_items_strings items :
  Forall (λ kv, ∃ s, kv.2 = VStr s) items →
  ∃ masked, mask_items items = Ok masked.
Proof.
  induction 1 as [|[k v] items [s Hs] _ [masked IH]]; simpl in *; [by eexists|].
  subst v. simpl. rewrite IH. simpl. by eexists.
Qed.

End ApiKeyManagerFacts.

Section ApiKeyManagerStore.
Context `{!PyRuntime}.
Import ApiKeyManager.

Lemma mask_items_str_values items masked :
  mask_items items = Ok masked → Forall (λ kv, ∃ s, kv.2 = VStr s) items.
Proof.
  intros Hm. apply mask_items_Ok in Hm.
  induction Hm as [|kv km items masked (_ & s & Hs & _) _ IH]; constructor; eauto.
Qed.

Lemma mask_items_elem_of items masked k s :
  mask_items items = Ok masked → (k, VStr s) ∈ items →
  (k, slice_upto 6 s +:+ "...") ∈ masked.
Proof.
  intros Hm%mask_items_Ok Hin.
  induction Hm as [|[k1 v1] [k2 m2] items masked (Hk & s' & Hs & Hmk) _ IH];
    simpl in *; [by apply elem_of_nil in Hin|].
  apply elem_of_cons in Hin as [Heq|Hin].
  - simplify_eq. left.
  - right. auto.
Qed.

Lemma dict_set_Forall (P : string * pyval → Prop) d k v :
  Forall P d → P (k, v) → (∀ x, P (k, x) → P (k, v)) → Forall P (dict_set d k v).
Proof.
  intros Hd Hkv _. induction Hd as [|[k0 x] d Hx Hd IH]; simpl.
  - by constructor.
  - destruct (String.eqb_spec k0 k) as [->|]; constructor; auto.
Qed.

(** The loop keeps a store of strings a store of strings. *)
Lemma fallback_loop_str_values env ks d log d' :
  for_each (fallback env) ks d = (log, Ok d') →
  Forall (λ kv, ∃ s, kv.2 = VStr s) d → Forall (λ kv, ∃ s, kv.2 = VStr s) d'.
Proof.
  revert d log. induction ks as [|a ks IH]; intros d log; simpl.
  - by intros [= _ <-].
  - destruct (fallback_step env d a) as [l1 H1]. rewrite (bind_Ok _ _ _ _ H1).
    destruct (for_each _ ks _) as [l2 r] eqn:H2. simpl. intros [= _ ->] Hd.
    eapply IH; [done|].
    destruct (individual env a); [|done]. destruct (unset d a); [|done].
    apply dict_set_Forall; simpl; eauto.
Qed.

Lemma missing_keys_nil keys k :
  missing_keys keys = [] → k ∈ REQUIRED_KEYS →
  ∃ v, dict_get keys k = Some v ∧ py_truthy v = true.
Proof.
  unfold missing_keys. intros Hm Hk%list_elem_of_In.
  assert (unset keys k = false) as Hu.
  { destruct (unset keys k) eqn:Hu; [|done].
    assert (In k (List.filter (unset keys) REQUIRED_KEYS)) as Hin
      by (apply filter_In; done).
    by rewrite Hm in Hin. }
  unfold unset, dict_get_or in Hu.
  destruct (dict_get keys k) as [v|]; simpl in Hu; [|done].
  exists v. split; [done|]. by destruct (py_truthy v).
Qed.

Lemma get_truthy keys k v :
  dict_get keys k = Some v → py_truthy v = true → get keys k = Ok v.
Proof. intros Hk Hv. unfold get, dict_get_or. rewrite Hk. simpl. by rewrite Hv. Qed.

Lemma missing_keys_nil_intro keys :
  (∀ k, k ∈ REQUIRED_KEYS → unset keys k = false) → missing_keys keys = [].
Proof.
  intros Hk. unfold missing_keys.
  rewrite (filter_ext_in _ (λ _, false)); [apply filter_false|].
  intros k Hin%list_elem_of_In. auto.
Qed.

Lemma gather_str_values env log keys :
  gather env = (log, Ok keys) →
  Forall (λ kv, ∃ s, kv.2 = VStr s) (blob env) →
  Forall (λ kv, ∃ s, kv.2 = VStr s) keys.
Proof.
  destruct (load_combined_blob env) as [l0 H0]. unfold gather.
  rewrite (bind_Ok _ _ _ _ H0).
  destruct (for_each _ _ _) as [l1 r] eqn:Hloop. simpl. intros [= _ ->].
  by eapply fallback_loop_str_values.
Qed.

End ApiKeyManagerStore.

(** ** The claims about the credential resolver *)

Section ApiKeyManagerClaims.
Context `{!PyRuntime}.
Import ApiKeyManager.

(** C1, as amended.  If, after the combined secret and the individual
    variables have been read, some required key-name is provided by
    neither, construction fails with a [DocumentPortalException] whose
    message is the fixed text "Missing API keys"; the missing
    key-names, exactly those and in the order of [REQUIRED_KEYS], are
    listed in the error record logged just before. *)
Theorem init_missing_raises (env : gmap string string) :
  missing_from_sources env ≠ [] →
  ∃ log,
    __init__ env =
      (log ++ [LogEvent ERROR "Missing required API keys"
                 [("missing_keys", FNames (missing_from_sources env))]],
       Raise (Exn DocumentPortalException "Missing API keys" None)).
Proof.
  intros Hmiss.
  destruct (gather_result env) as (log & keys & Hg & Hget).
  pose proof (missing_after_gather env keys Hget) as Hm.
  exists log. rewrite (init_unfold _ _ _ Hg).
  destruct (missing_from_sources env) as [|k ks]; [done|].
  by rewrite (check_missing _ _ _ Hm).
Qed.

(** C2, as amended.  On successful construction the last record logged
    carries, for every entry of the credential set, the first six
    characters of its value followed by "..."; the logged text equals
    the value itself only when the value has nine characters ending in
    "...".  The value "sk-ABCDEFGH" is logged as "sk-ABC...". *)
Theorem init_logs_masked (env : gmap string string) log keys :
  __init__ env = (log, Ok keys) →
  (∃ log0 masked,
     log = log0 ++ [LogEvent INFO "API keys loaded" [("keys", FMasked masked)]] ∧
     Forall2 (λ kv km, km.1 = kv.1 ∧
                ∃ v, kv.2 = VStr v ∧ km.2 = slice_upto 6 v +:+ "..." ∧
                     (km.2 = v ↔ looks_masked v)) keys masked) ∧
  mask (VStr "sk-ABCDEFGH") = Ok "sk-ABC...".
Proof.
  intros (log0 & masked & _ & _ & Hmask & ->)%init_Ok_inv. split; [|done].
  exists log0, masked. split; [done|].
  apply mask_items_Ok in Hmask.
  eapply Forall2_impl; [done|]. intros kv km (Hk & s & Hs & Hm).
  split; [done|]. exists s. split; [done|]. split; [done|].
  rewrite Hm. apply slice_upto_masked_eq.
Qed.

(** C8.  Whenever construction succeeds, every required key-name maps
    to a non-empty string in the credential set, and [get] returns that
    string for it instead of raising. *)
Theorem init_required_present (env : gmap string string) log keys :
  __init__ env = (log, Ok keys) →
  ∀ k, k ∈ REQUIRED_KEYS →
    ∃ s, s ≠ "" ∧ dict_get keys k = Some (VStr s) ∧ get keys k = Ok (VStr s).
Proof.
  intros (log0 & masked & _ & Hmiss & Hmask & _)%init_Ok_inv k Hk.
  destruct (missing_keys_nil keys k Hmiss Hk) as (v & Hget & Hv).
  apply mask_items_str_values in Hmask.
  rewrite Forall_forall in Hmask.
  destruct (Hmask _ (dict_get_elem_of _ _ _ Hget)) as [s Hs]. simpl in Hs. subst v.
  exists s. split; [|split; [done|by apply get_truthy]].
  by apply str_truthy_true.
Qed.

Lemma blob_object env raw b :
  env !! "API_KEYS" = Some raw → raw ≠ "" → json_loads raw = Ok (VDict b) →
  blob env = b.
Proof.
  intros Henv Hraw%str_truthy_true Hjson. unfold blob. by rewrite Henv, Hraw, Hjson.
Qed.

Lemma blob_discarded env raw :
  env !! "API_KEYS" = Some raw → (∀ d, json_loads raw ≠ Ok (VDict d)) →
  blob env = [].
Proof.
  intros Henv Hjson. unfold blob. rewrite Henv.
  destruct (str_truthy raw); [|done].
  destruct (json_loads raw) as [[]|] eqn:E; try done. by destruct (Hjson d).
Qed.

(** C4, as amended.  If [API_KEYS] decodes to an object that gives non-empty string
    values to some of the required key-names (any further entry being a
    string too), and every required key-name it lacks is set to a
    non-empty individual variable, construction succeeds and the
    credential set is the union of the object and the individual
    variables of the required key-names, the object's value winning
    wherever both have one. *)
Theorem init_union_blob_first (env : gmap string string) raw b :
  env !! "API_KEYS" = Some raw → raw ≠ "" → json_loads raw = Ok (VDict b) →
  Forall (λ kv, ∃ s, kv.2 = VStr s ∧ (kv.1 ∈ REQUIRED_KEYS → s ≠ "")) b →
  (∀ k, k ∈ REQUIRED_KEYS → dict_get b k = None → ∃ s, env !! k = Some s ∧ s ≠ "") →
  ∃ log keys,
    __init__ env = (log, Ok keys) ∧
    ∀ k, dict_get keys k =
           dict_get b k ∪
           (if bool_decide (k ∈ REQUIRED_KEYS) then VStr <$> env !! k else None).
Proof.
  intros Henv Hraw Hjson Hb Hrest.
  pose proof (blob_object _ _ _ Henv Hraw Hjson) as Hblob.
  destruct (gather_result env) as (log0 & keys & Hg & Hget).
  pose proof (gather_str_values _ _ _ Hg) as Hstr.
  rewrite Hblob in Hget, Hstr.
  assert (∀ k v, k ∈ REQUIRED_KEYS → dict_get b k = Some v → py_truthy v = true)
    as Htruthy.
  { intros k v Hreq Hk%dict_get_elem_of. rewrite Forall_forall in Hb.
    destruct (Hb _ Hk) as (s & Hs & Hne). simpl in Hs, Hne. subst v.
    by apply str_truthy_true, Hne. }
  assert (∀ k, dict_get keys k =
           dict_get b k ∪
           (if bool_decide (k ∈ REQUIRED_KEYS) then VStr <$> env !! k else None)) as Hunion.
  { intros k. rewrite Hget. unfold unset, dict_get_or.
    case_bool_decide as Hreq; simpl; [|by destruct (dict_get b k)].
    destruct (dict_get b k) as [v|] eqn:Hk; simpl.
    - rewrite (Htruthy _ _ Hreq Hk). by destruct (env !! k).
    - destruct (Hrest k Hreq Hk) as (s & Hs & Hne).
      assert (individual env k = Some s) as -> by by apply individual_Some.
      by rewrite Hs. }
  assert (missing_keys keys = []) as Hmiss.
  { apply missing_keys_nil_intro. intros k Hreq.
    unfold unset, dict_get_or. rewrite Hunion, bool_decide_eq_true_2 by done.
    destruct (dict_get b k) as [v|] eqn:Hk; simpl.
    - destruct (env !! k); simpl; by rewrite (Htruthy _ _ Hreq Hk).
    - destruct (Hrest k Hreq Hk) as (s & -> & Hne%str_truthy_true). simpl.
      unfold str_truthy in Hne. by rewrite Hne. }
  destruct (mask_items_strings keys) as [masked Hmask].
  { apply Hstr. eapply Forall_impl; [done|]. intros kv (s & Hs & _). eauto. }
  eexists _, keys. split; [|done].
  rewrite (init_unfold _ _ _ Hg), (check_masked _ _ Hmiss Hmask). done.
Qed.

(** The outcome of construction is decided by the store the loop
    leaves. *)
Lemma init_outcome env log keys :
  for_each (fallback env) REQUIRED_KEYS (blob env) = (log, Ok keys) →
  (__init__ env).2 = (check_and_report keys).2.
Proof.
  intros Hloop. destruct (load_combined_blob env) as [l0 H0].
  assert (gather env = (l0 ++ log, Ok keys)) as Hg.
  { unfold gather. by rewrite (bind_Ok _ _ _ _ H0), Hloop. }
  by rewrite (init_unfold _ _ _ Hg).
Qed.

Lemma required_not_API_KEYS k : k ∈ REQUIRED_KEYS → k ≠ "API_KEYS".
Proof.
  unfold REQUIRED_KEYS. intros Hk.
  repeat (apply elem_of_cons in Hk as [->|Hk]; [done|]).
  by apply elem_of_nil in Hk.
Qed.

(** C5.  When [API_KEYS] is set but does not decode to an object,
    reading it does not fail and leaves the store empty; construction
    then ends as it would with [API_KEYS] unset, and it succeeds with
    the three individual values when all three are set and non-empty. *)
Theorem init_malformed_blob (env : gmap string string) raw :
  env !! "API_KEYS" = Some raw → (∀ d, json_loads raw ≠ Ok (VDict d)) →
  (∃ log, load_combined env = (log, Ok [])) ∧
  (__init__ env).2 = (__init__ (delete "API_KEYS" env)).2 ∧
  ∀ g o p,
    env !! "GROQ_API_KEY" = Some g → g ≠ "" →
    env !! "GOOGLE_API_KEY" = Some o → o ≠ "" →
    env !! "OPENAI_API_KEY" = Some p → p ≠ "" →
    (__init__ env).2 =
      Ok [("GROQ_API_KEY", VStr g); ("GOOGLE_API_KEY", VStr o);
          ("OPENAI_API_KEY", VStr p)].
Proof.
  intros Henv Hjson.
  pose proof (blob_discarded _ _ Henv Hjson) as Hblob.
  split; [|split].
  - destruct (load_combined_blob env) as [log Hl]. rewrite Hblob in Hl. eauto.
  - assert (blob (delete "API_KEYS" env) = []) as Hblob'.
    { unfold blob. by rewrite lookup_delete_eq. }
    destruct (fallback_loop env REQUIRED_KEYS []) as (l1 & keys & Hloop & _).
    rewrite (init_outcome env l1 keys) by by rewrite Hblob.
    rewrite (init_outcome (delete "API_KEYS" env) l1 keys); [done|].
    rewrite Hblob', <- Hloop. apply for_each_ext. intros d k Hk%required_not_API_KEYS.
    unfold fallback, os_getenv. by rewrite lookup_delete_ne.
  - intros g o p Hg Hgn%str_truthy_true Ho Hon%str_truthy_true Hp Hpn%str_truthy_true.
    erewrite init_outcome.
    2:{ rewrite Hblob. simpl. unfold fallback, os_getenv. simpl.
        rewrite Hg, Hgn. simpl. rewrite Ho, Hon. simpl. rewrite Hp, Hpn. simpl.
        reflexivity. }
    unfold check_and_report, missing_keys, unset, dict_get_or. simpl.
    unfold str_truthy in Hgn, Hon, Hpn. by rewrite Hgn, Hon, Hpn.
Qed.


(** C10.  A key-name of the combined secret that is not one of the
    three required ones stays in the credential set of a successful
    construction with its value, its masked value is part of the
    success record, and [get] returns its value when that is not
    empty. *)
Theorem extra_blob_keys_kept (env : gmap string string) raw b log keys :
  env !! "API_KEYS" = Some raw → raw ≠ "" → json_loads raw = Ok (VDict b) →
  __init__ env = (log, Ok keys) →
  ∀ k v, k ∉ REQUIRED_KEYS → dict_get b k = Some v →
    dict_get keys k = Some v ∧
    (∃ s log0 masked,
       v = VStr s ∧
       log = log0 ++ [LogEvent INFO "API keys loaded" [("keys", FMasked masked)]] ∧
       (k, slice_upto 6 s +:+ "...") ∈ masked) ∧
    (py_truthy v = true → get keys k = Ok v).
Proof.
  intros Henv Hraw Hjson (log0 & masked & Hg & _ & Hmask & ->)%init_Ok_inv k v Hk Hb.
  destruct (gather_result env) as (log' & keys' & Hg' & Hget).
  rewrite Hg in Hg'. injection Hg' as _ <-.
  rewrite (blob_object _ _ _ Henv Hraw Hjson) in Hget.
  assert (dict_get keys k = Some v) as Hkv.
  { by rewrite Hget, bool_decide_eq_false_2. }
  split; [done|]. split; [|by apply get_truthy].
  pose proof (mask_items_str_values _ _ Hmask) as Hstr.
  rewrite Forall_forall in Hstr.
  destruct (Hstr _ (dict_get_elem_of _ _ _ Hkv)) as [s Hs]. simpl in Hs. subst v.
  exists s, log0, masked. split; [done|]. split; [done|].
  eapply mask_items_elem_of; [done|]. by apply dict_get_elem_of.
Qed.

(** On success the store holds, for a required key-name, the
    credential the two sources provide for it. *)
Lemma init_store_provided env log keys k v :
  __init__ env = (log, Ok keys) → k ∈ REQUIRED_KEYS →
  dict_get keys k = Some v → provided env k = Some v.
Proof.
  intros (log0 & masked & Hg & Hmiss & _ & _)%init_Ok_inv Hk Hv.
  destruct (gather_result env) as (log' & keys' & Hg' & Hget).
  rewrite Hg in Hg'. injection Hg' as _ <-.
  destruct (missing_keys_nil keys k Hmiss Hk) as (v' & Hv' & Htruthy).
  rewrite Hv in Hv'. injection Hv' as <-.
  rewrite Hget, bool_decide_eq_true_2 in Hv by done. rewrite andb_true_l in Hv.
  unfold provided. unfold unset, dict_get_or in Hv.
  destruct (dict_get (blob env) k) as [b|] eqn:Hb; simpl in Hv.
  - destruct (py_truthy b) eqn:Htb; simpl in Hv; [done|].
    destruct (individual env k) as [s|]; [done|].
    injection Hv as ->. congruence.
  - by destruct (individual env k) as [s|].
Qed.

End ApiKeyManagerClaims.

(** ** The claims about the model loader *)

Section ModelLoaderClaims.
Context `{!PyRuntime} `{!LangChain}.
Import ModelLoader.

(** C3.  Every exception raised inside [load_embeddings], whether by
    reading the model name from the configuration, by looking up
    [GOOGLE_API_KEY] or by the embedding factory, is logged and then
    replaced by a [DocumentPortalException] that keeps the original
    exception; without an exception the result is the client the
    factory built from the configured model name and the key. *)
Theorem load_embeddings_wraps (self : ModelLoader.t) :
  (∀ e, raised_in_load_embeddings self e →
     ∃ log,
       load_embeddings self =
         (log ++ [LogEvent ERROR "Error loading embedding model"
                    [("error", FStrOfExn e)]],
          Raise (Exn DocumentPortalException "Failed to load embedding model"
                   (Some e)))) ∧
  (∀ model_name google_api_key c,
     embedding_model_name self = Ok model_name →
     ApiKeyManager.get (api_key_mgr self) "GOOGLE_API_KEY" = Ok google_api_key →
     GoogleGenerativeAIEmbeddings model_name google_api_key = Ok c →
     load_embeddings self =
       ([LogEvent INFO "Loading embedding model" [("model", FValue model_name)]],
        Ok c)).
Proof.
  split.
  - intros e [Hname|[(m & Hname & Hkey)|(m & k & Hname & Hkey & Hfac)]];
      unfold load_embeddings; rewrite Hname; simpl.
    + by exists [].
    + rewrite Hkey. simpl. by eexists [_].
    + rewrite Hkey. simpl. rewrite Hfac. simpl. by eexists [_].
  - intros m k c Hname Hkey Hfac.
    unfold load_embeddings. rewrite Hname. simpl. rewrite Hkey. simpl.
    by rewrite Hfac.
Qed.

(** C6.  With [LLM_PROVIDER] unset and an [openai] entry of the [llm]
    block that has provider tag "openai", model name "gpt-x",
    temperature 0.1 and no [max_output_tokens], [load_llm] of a loader
    whose resolver was constructed successfully calls the OpenAI chat
    factory with model "gpt-x", temperature 0.1, a token budget of 2048
    and, as key, the non-empty string the credential set holds for
    [OPENAI_API_KEY], which is the one the two sources provided. *)
Theorem load_llm_openai_default (self : ModelLoader.t)
    (env env0 : gmap string string) log0 llm entry :
  ApiKeyManager.__init__ env0 = (log0, Ok (api_key_mgr self)) →
  env !! "LLM_PROVIDER" = None →
  py_getitem (config self) "llm" = Ok (VDict llm) →
  dict_get llm "openai" = Some (VDict entry) →
  dict_get entry "provider" = Some (VStr "openai") →
  dict_get entry "model_name" = Some (VStr "gpt-x") →
  dict_get entry "temperature" = Some (VFloat 0.1) →
  dict_get entry "max_output_tokens" = None →
  ∃ key,
    key ≠ "" ∧
    provided env0 "OPENAI_API_KEY" = Some (VStr key) ∧
    dict_get (api_key_mgr self) "OPENAI_API_KEY" = Some (VStr key) ∧
    load_llm self env =
      ([LogEvent INFO "Loading LLM"
          [("provider", FValue (VStr "openai")); ("model", FValue (VStr "gpt-x"))]],
       ChatOpenAI (VStr "gpt-x") (VStr key) (VFloat 0.1) (VInt 2048)).
Proof.
  intros Hinit Henv Hllm Hentry Hprov Hmodel Htemp Hmax.
  assert ("OPENAI_API_KEY" ∈ ApiKeyManager.REQUIRED_KEYS) as Hreq.
  { apply list_elem_of_In. simpl. auto. }
  pose proof Hinit as (l0 & masked & _ & Hmiss & Hmask & _)%init_Ok_inv.
  destruct (missing_keys_nil _ "OPENAI_API_KEY" Hmiss Hreq) as (v & Hv & Htruthy).
  apply mask_items_str_values in Hmask. rewrite Forall_forall in Hmask.
  destruct (Hmask _ (dict_get_elem_of _ _ _ Hv)) as [key Hkey]. simpl in Hkey. subst v.
  pose proof (get_truthy _ _ _ Hv Htruthy) as Hget.
  exists key. split; [by apply str_truthy_true|].
  split; [by apply (init_store_provided _ _ _ _ _ Hinit)|]. split; [done|].
  unfold load_llm, os_getenv_or. rewrite Hllm, Henv. simpl.
  unfold dict_contains, dict_get_or. rewrite Hentry. simpl.
  unfold dict_get_or. rewrite Hprov, Hmodel, Htemp, Hmax. simpl. rewrite Hget. simpl.
  by destruct (ChatOpenAI _ _ _ _).
Qed.

Lemma get_Ok_inv keys k v :
  ApiKeyManager.get keys k = Ok v → dict_get keys k = Some v ∧ py_truthy v = true.
Proof.
  unfold ApiKeyManager.get, dict_get_or.
  destruct (dict_get keys k) as [x|]; simpl; [|done].
  destruct (py_truthy x) eqn:Hx; simpl; [|done]. by intros [= <-].
Qed.

Lemma get_Raise_inv keys k e :
  ApiKeyManager.get keys k = Raise e → exn_cls e = KeyError.
Proof. unfold ApiKeyManager.get. destruct (negb _); [|done]. by intros [= <-]. Qed.

(** The four ways [load_llm] can end. *)
Lemma load_llm_cases (self : ModelLoader.t) (env : gmap string string) :
  provider_key_absent self env ∨
  (∃ tag, provider_tag_unsupported self env tag) ∨
  other_error (load_llm self env).2 ∨
  selected_call self env (load_llm self env).2.
Proof.
  unfold provider_key_absent, provider_tag_unsupported, selected_call, load_llm.
  set (provider_key := os_getenv_or env "LLM_PROVIDER" "openai").
  destruct (py_getitem (config self) "llm") as [blk|e] eqn:Hblk; simpl.
  2:{ right. right. left. exists e. split; [done|].
      destruct (config self); simpl in Hblk; try (injection Hblk as <-; set_solver).
      destruct (dict_get d "llm"); simplify_eq. set_solver. }
  destruct (py_in provider_key blk) as [[]|e] eqn:Hin; simpl.
  3:{ right. right. left. exists e. split; [done|].
      destruct blk; simpl in Hin; simplify_eq; set_solver. }
  2:{ left. by exists blk. }
  destruct (py_getitem blk provider_key) as [cfg|e] eqn:Hcfg; simpl.
  2:{ right. right. left. exists e. split; [done|].
      destruct blk; simpl in Hcfg; simplify_eq; try set_solver.
      destruct (dict_get d provider_key); simplify_eq. set_solver. }
  destruct (py_get cfg "provider" VNone) as [tag|e] eqn:Htag; simpl.
  2:{ right. right. left. exists e. split; [done|].
      destruct cfg; simpl in Htag; simplify_eq; set_solver. }
  destruct cfg; simpl in Htag; try done. simpl.
  injection Htag as Htag.
  assert (∀ k, (∃ v, ApiKeyManager.get (api_key_mgr self) k = Ok v ∧
                     dict_get (api_key_mgr self) k = Some v ∧ py_truthy v = true) ∨
               ∃ e, ApiKeyManager.get (api_key_mgr self) k = Raise e ∧
                    exn_cls e = KeyError) as Hget.
  { intros k. destruct (ApiKeyManager.get (api_key_mgr self) k) as [v|e] eqn:Hk.
    - left. exists v. split; [done|]. by apply get_Ok_inv.
    - right. exists e. split; [done|]. by eapply get_Raise_inv. }
  destruct (py_eq_str tag "google") eqn:Hg.
  { destruct (Hget "GOOGLE_API_KEY") as [(v & -> & Hv & Ht)|(e & -> & He)]; simpl.
    - right. right. right. exists blk, d, v. rewrite Htag, Hg.
      split; [done|]. split; [done|]. split; [done|]. left.
      split; [done|]. split; [done|]. by destruct (ChatGoogleGenerativeAI _ _ _ _).
    - right. right. left. exists e. rewrite He. split; [done|set_solver]. }
  destruct (py_eq_str tag "groq") eqn:Hq.
  { destruct (Hget "GROQ_API_KEY") as [(v & -> & Hv & Ht)|(e & -> & He)]; simpl.
    - right. right. right. exists blk, d, v. rewrite Htag, Hq.
      split; [done|]. split; [done|]. split; [done|]. right. left.
      split; [done|]. split; [done|]. by destruct (ChatGroq _ _ _).
    - right. right. left. exists e. rewrite He. split; [done|set_solver]. }
  destruct (py_eq_str tag "openai") eqn:Ho.
  { destruct (Hget "OPENAI_API_KEY") as [(v & -> & Hv & Ht)|(e & -> & He)]; simpl.
    - right. right. right. exists blk, d, v. rewrite Htag, Ho.
      split; [done|]. split; [done|]. split; [done|]. right. right.
      split; [done|]. split; [done|]. by destruct (ChatOpenAI _ _ _ _).
    - right. right. left. exists e. rewrite He. split; [done|set_solver]. }
  right. left. exists tag, blk, (VDict d). simpl. by rewrite Htag.
Qed.

(** C7, as amended.  By its own [raise] statements [load_llm] raises a
    [ValueError] naming the offending value in exactly two situations:
    when the requested provider key is not in the [llm] block (the
    message names the key) and when the provider tag of the selected
    entry is none of "google", "groq" and "openai" (the message names
    the tag).  In every other case its outcome is a [KeyError],
    [TypeError] or [AttributeError] of a lookup, or what the selected
    chat factory returns or raises; so, when no factory raises a
    [ValueError], a [ValueError] comes from these two situations only. *)
Theorem load_llm_validation_errors (self : ModelLoader.t) (env : gmap string string) :
  (provider_key_absent self env →
     (load_llm self env).2 =
       Raise (Exn ValueError
                ("LLM provider '" +:+ os_getenv_or env "LLM_PROVIDER" "openai" +:+
                 "' not found in config") None)) ∧
  (∀ tag, provider_tag_unsupported self env tag →
     (load_llm self env).2 =
       Raise (Exn ValueError ("Unsupported LLM provider: " +:+ py_format tag) None)) ∧
  (¬ provider_key_absent self env →
   (∀ tag, ¬ provider_tag_unsupported self env tag) →
   other_error (load_llm self env).2 ∨ selected_call self env (load_llm self env).2) ∧
  (factories_raise_no_ValueError →
   ∀ e, (load_llm self env).2 = Raise e → exn_cls e = ValueError →
        provider_key_absent self env ∨ ∃ tag, provider_tag_unsupported self env tag).
Proof.
  split; [|split; [|split]].
  - unfold provider_key_absent, load_llm.
    intros (blk & -> & Hin). simpl. by rewrite Hin.
  - unfold provider_tag_unsupported, load_llm.
    intros tag (blk & cfg & -> & Hin & Hcfg & Htag & Hg & Hq & Ho). simpl.
    rewrite Hin. simpl. rewrite Hcfg. simpl.
    destruct cfg; try done. simpl in *. injection Htag as Htag.
    rewrite Htag, Hg, Hq, Ho. done.
  - intros Habsent Hunsupported.
    destruct (load_llm_cases self env) as [Ha|[[tag Hu]|[Ho|Hs]]]; [done| |by left|by right].
    by destruct (Hunsupported tag).
  - intros Hfactories e Hraise Hcls.
    destruct (load_llm_cases self env) as [Ha|[Hu|[Ho|Hs]]]; [by left|by right| |].
    + destruct Ho as (e' & He' & Hin). rewrite Hraise in He'. injection He' as <-.
      rewrite Hcls in Hin. exfalso.
      repeat (apply elem_of_cons in Hin as [Hin|Hin]; [discriminate|]).
      by apply elem_of_nil in Hin.
    + destruct Hs as (blk & entry & key & _ & _ & _ & Hcall). rewrite Hraise in Hcall.
      exfalso. simpl in Hcall.
      destruct Hcall as [(_ & _ & Hc)|[(_ & _ & Hc)|(_ & _ & Hc)]]; symmetry in Hc.
      * exact (Hfactories _ _ _ _ e (or_introl Hc) Hcls).
      * exact (Hfactories _ _ _ VNone e (or_intror (or_introl Hc)) Hcls).
      * exact (Hfactories _ _ _ _ e (or_intror (or_intror Hc)) Hcls).
Qed.

End ModelLoaderClaims.


(** ** Further properties of the credential resolver *)

Section ApiKeyManagerFurther.
Context `{!PyRuntime}.
Import ApiKeyManager.

Lemma load_combined_ext env env' :
  env !! "API_KEYS" = env' !! "API_KEYS" → load_combined env = load_combined env'.
Proof. intros Heq. unfold load_combined, os_getenv. by rewrite Heq. Qed.

Lemma fallback_keeps_set env d a k :
  unset d k = false →
  unset (match individual env a with
         | Some s => if unset d a then dict_set d a (VStr s) else d
         | None => d
         end) k = false.
Proof.
  intros Hk. destruct (individual env a) as [s|] eqn:Hs; [|done].
  destruct (unset d a) eqn:Ha; [|done].
  destruct (decide (a = k)) as [->|Hne]; [congruence|].
  by rewrite unset_set_ne.
Qed.

(** The loop reads the variable of a key-name only while that key-name
    is unset in the store. *)
Lemma fallback_loop_agree env env' ks d :
  (∀ k, k ∈ ks → env !! k = env' !! k ∨ unset d k = false) →
  for_each (fallback env) ks d = for_each (fallback env') ks d.
Proof.
  revert d. induction ks as [|a ks IH]; intros d Hks; simpl; [done|].
  assert (fallback env d a = fallback env' d a) as Hstep.
  { unfold fallback, os_getenv.
    destruct (Hks a) as [Heq|Hset]; [left| |]; [by rewrite Heq|by rewrite Hset]. }
  rewrite Hstep. destruct (fallback_step env' d a) as [l1 H1]. rewrite H1. simpl.
  rewrite IH; [done|]. intros k Hk.
  destruct (Hks k) as [Heq|Hset]; [by right|by left|right].
  by apply fallback_keeps_set.
Qed.

(** X2.  The constructor reads four variables and nothing else: two
    environments that agree on [API_KEYS] and on the three required
    key-names give the same records and the same outcome. *)
Theorem init_reads_four_variables (env env' : gmap string string) :
  env !! "API_KEYS" = env' !! "API_KEYS" →
  (∀ k, k ∈ REQUIRED_KEYS → env !! k = env' !! k) →
  __init__ env = __init__ env'.
Proof.
  intros Hblob Hreq. unfold __init__, gather.
  rewrite (load_combined_ext _ _ Hblob).
  destruct (load_combined env') as [l [d|e]]; [|done].
  rewrite !(bind_Ok (l, Ok d) _ l d eq_refl).
  rewrite (fallback_loop_agree env env'); [done|]. intros k Hk. left. auto.
Qed.

(** X3.  A truthy value of the combined secret hides the variable of the same
    name: whatever that variable holds, and whether it is set at all,
    construction gives the same records and the same outcome. *)
Theorem blob_value_hides_variable (env : gmap string string) k v x :
  k ∈ REQUIRED_KEYS → dict_get (blob env) k = Some v → py_truthy v = true →
  __init__ (<[k := x]> env) = __init__ env ∧ __init__ (delete k env) = __init__ env.
Proof.
  intros Hk Hv Htruthy.
  pose proof (required_not_API_KEYS k Hk) as Hne.
  assert (unset (blob env) k = false) as Hset.
  { unfold unset, dict_get_or. rewrite Hv. simpl. by rewrite Htruthy. }
  destruct (load_combined_blob env) as [l0 H0].
  assert (∀ env', env' !! "API_KEYS" = env !! "API_KEYS" →
                  (∀ k', k' ≠ k → env' !! k' = env !! k') →
                  __init__ env' = __init__ env) as Hsame.
  { intros env' Hblob Hother. unfold __init__, gather.
    rewrite (load_combined_ext _ _ Hblob), H0.
    rewrite !(bind_Ok (l0, Ok (blob env)) _ _ _ eq_refl).
    rewrite (fallback_loop_agree env' env); [done|]. intros k' _.
    destruct (decide (k' = k)) as [->|Hk']; [by right|left; auto]. }
  split; apply Hsame.
  - by rewrite lookup_insert_ne.
  - intros k' Hk'. by rewrite lookup_insert_ne.
  - by rewrite lookup_delete_ne.
  - intros k' Hk'. by rewrite lookup_delete_ne.
Qed.

(** X1.  With the three variables set and no combined secret ([API_KEYS]
    unset or empty), construction succeeds with exactly the three values,
    unmodified and in the order of [REQUIRED_KEYS], after one record per
    variable and the masked record. *)
Theorem init_three_variables (env : gmap string string) g o p :
  env !! "API_KEYS" = None ∨ env !! "API_KEYS" = Some "" →
  env !! "GROQ_API_KEY" = Some g → g ≠ "" →
  env !! "GOOGLE_API_KEY" = Some o → o ≠ "" →
  env !! "OPENAI_API_KEY" = Some p → p ≠ "" →
  __init__ env =
    ([LogEvent INFO "Loaded GROQ_API_KEY from individual env var" [];
      LogEvent INFO "Loaded GOOGLE_API_KEY from individual env var" [];
      LogEvent INFO "Loaded OPENAI_API_KEY from individual env var" [];
      LogEvent INFO "API keys loaded"
        [("keys", FMasked [("GROQ_API_KEY", slice_upto 6 g +:+ "...");
                           ("GOOGLE_API_KEY", slice_upto 6 o +:+ "...");
                           ("OPENAI_API_KEY", slice_upto 6 p +:+ "...")])]],
     Ok [("GROQ_API_KEY", VStr g); ("GOOGLE_API_KEY", VStr o);
         ("OPENAI_API_KEY", VStr p)]).
Proof.
  intros Hblob Hg Hgn%str_truthy_true Ho Hon%str_truthy_true Hp Hpn%str_truthy_true.
  assert (load_combined env = ([], Ok [])) as Hload.
  { unfold load_combined, os_getenv. by destruct Hblob as [->| ->]. }
  unfold __init__, gather. rewrite Hload. simpl.
  unfold fallback, os_getenv. simpl.
  rewrite Hg, Hgn. simpl. rewrite Ho, Hon. simpl. rewrite Hp, Hpn. simpl.
  unfold check_and_report, missing_keys, unset, dict_get_or. simpl.
  unfold str_truthy in Hgn, Hon, Hpn. by rewrite Hgn, Hon, Hpn.
Qed.

Lemma mask_items_non_string items k v :
  (k, v) ∈ items → (∀ s, v ≠ VStr s) → ∃ e, mask_items items = Raise e.
Proof.
  intros Hin Hv. destruct (mask_items items) as [masked|e] eqn:Hm; [|by eexists].
  apply mask_items_str_values in Hm. rewrite Forall_forall in Hm.
  destruct (Hm _ Hin) as [s Hs]. by destruct (Hv s).
Qed.

Lemma mask_items_Raise_inv items e :
  mask_items items = Raise e → ∃ k v, (k, v) ∈ items ∧ mask v = Raise e.
Proof.
  induction items as [|[k v] items IH]; simpl; [done|].
  destruct (mask v) as [s|e'] eqn:Hv; simpl.
  - destruct (mask_items items) as [r|e'] eqn:Hr; simpl; [done|].
    intros [= ->]. destruct IH as (k' & v' & Hin & Hm); [done|].
    exists k', v'. split; [by right|done].
  - intros [= ->]. exists k, v. split; [left|done].
Qed.

Lemma mask_Raise_inv v e :
  mask v = Raise e →
  (∀ s, v ≠ VStr s) ∧ ((∀ d, v ≠ VDict d) → exn_cls e = TypeError).
Proof.
  destruct v; simpl; try done; intros [= <-]; (split; [done|]); try done.
  intros Hd. by destruct (Hd d).
Qed.

Lemma dict_set_elem_of (d : dict) a x k v :
  (k, v) ∈ dict_set d a x → (k, v) ∈ d ∨ v = x.
Proof.
  induction d as [|[k0 v0] d IH]; simpl.
  - intros [= _ ->]%list_elem_of_singleton. by right.
  - destruct (String.eqb k0 a).
    + intros [[= _ ->]|Hin]%elem_of_cons; [by right|left; by right].
    + intros [[= -> ->]|Hin]%elem_of_cons; [left; left|].
      destruct (IH Hin) as [?|?]; [left; by right|by right].
Qed.

(** The loop puts nothing but strings into the store. *)
Lemma fallback_loop_entries env ks d log d' k v :
  for_each (fallback env) ks d = (log, Ok d') →
  (k, v) ∈ d' → (k, v) ∈ d ∨ ∃ s, v = VStr s.
Proof.
  revert d log. induction ks as [|a ks IH]; intros d log; simpl.
  - intros [= _ <-]. by left.
  - destruct (fallback_step env d a) as [l1 H1]. rewrite (bind_Ok _ _ _ _ H1).
    destruct (for_each _ ks _) as [l2 r] eqn:H2. simpl. intros [= _ ->] Hin.
    destruct (IH _ _ H2 Hin) as [Hd|?]; [|by right].
    destruct (individual env a) as [s|]; [|by left].
    destruct (unset d a); [|by left].
    apply dict_set_elem_of in Hd as [?| ->]; [by left|right; by exists s].
Qed.

(** X4.  A value of the combined secret that is not a string makes
    construction fail, for a key-name that is not required whatever the
    value is ([null] included), and for a required key-name when the
    value is truthy.  When some required key-name is missing, the error
    is the one of the final check; when all three credentials are
    provided, it is the exception that [v[:6] + "..."] raises on a value
    of the combined secret that is not a string, a [TypeError] unless
    that value is a mapping, raised with nothing logged after the two
    passes. *)
Theorem init_rejects_non_string (env : gmap string string) k v :
  dict_get (blob env) k = Some v →
  (k ∈ REQUIRED_KEYS → py_truthy v = true) →
  (∀ s, v ≠ VStr s) →
  ∃ log keys,
    gather env = (log, Ok keys) ∧
    match missing_from_sources env with
    | _ :: _ =>
        (__init__ env).2 = Raise (Exn DocumentPortalException "Missing API keys" None)
    | [] =>
        ∃ k' v' e,
          (k', v') ∈ blob env ∧ (∀ s, v' ≠ VStr s) ∧ mask v' = Raise e ∧
          ((∀ d, v' ≠ VDict d) → exn_cls e = TypeError) ∧
          __init__ env = (log, Raise e)
    end.
Proof.
  intros Hv Hreq Hstr.
  destruct (gather_result env) as (log & keys & Hg & Hget).
  exists log, keys. split; [done|].
  pose proof (missing_after_gather env keys Hget) as Hmiss.
  assert (dict_get keys k = Some v) as Hk.
  { rewrite Hget. case_bool_decide as Hin; simpl; [|done].
    unfold unset, dict_get_or. rewrite Hv. simpl. by rewrite (Hreq Hin). }
  rewrite (init_unfold _ _ _ Hg).
  destruct (missing_from_sources env) as [|k0 ks].
  - destruct (mask_items_non_string keys k v) as [e He];
      [by apply dict_get_elem_of|done|].
    destruct (mask_items_Raise_inv _ _ He) as (k' & v' & Hin & Hmask).
    destruct (mask_Raise_inv _ _ Hmask) as [Hns Hcls].
    exists k', v', e. split; [|split; [done|split; [done|split; [done|]]]].
    + destruct (load_combined_blob env) as [l0 H0]. unfold gather in Hg.
      rewrite (bind_Ok _ _ _ _ H0) in Hg.
      destruct (for_each _ _ _) as [l1 r] eqn:Hloop. simpl in Hg.
      injection Hg as _ ->.
      destruct (fallback_loop_entries _ _ _ _ _ _ _ Hloop Hin) as [?|[s ->]]; [done|].
      by destruct (Hns s).
    + rewrite (check_unmaskable _ _ Hmiss He). simpl. by rewrite app_nil_r.
  - by rewrite (check_missing _ _ _ Hmiss).
Qed.

Lemma slice_upto_length n s :
  String.length (slice_upto n s) = String.length s `min` n.
Proof.
  revert s. induction n as [|n IH]; intros [|c s]; simpl; rewrite ?IH; lia.
Qed.

Lemma slice_upto_all n s : String.length s ≤ n → slice_upto n s = s.
Proof.
  revert s. induction n as [|n IH]; intros [|c s]; simpl; try done; [lia|].
  intros Hle. rewrite IH; [done|lia].
Qed.

Lemma append_length s t :
  String.length (s +:+ t) = String.length s + String.length t.
Proof. induction s as [|c s IH]; simpl; [done|by rewrite IH]. Qed.

(** X5.  The success record shows at most six characters of a value: the
    logged text of a value of [n] characters has [min n 6 + 3]
    characters, and for a value of at most six characters it is the
    whole value followed by three dots. *)
Theorem init_logs_short_secret_whole (env : gmap string string) log keys :
  __init__ env = (log, Ok keys) →
  ∃ log0 masked,
    log = log0 ++ [LogEvent INFO "API keys loaded" [("keys", FMasked masked)]] ∧
    Forall2 (λ kv km, km.1 = kv.1 ∧
               ∃ v, kv.2 = VStr v ∧
                    String.length km.2 = String.length v `min` 6 + 3 ∧
                    (String.length v ≤ 6 → km.2 = v +:+ "...")) keys masked.
Proof.
  intros (log0 & masked & _ & _ & Hmask & ->)%init_Ok_inv.
  exists log0, masked. split; [done|].
  apply mask_items_Ok in Hmask.
  eapply Forall2_impl; [done|]. intros kv km (Hk & v & Hv & ->).
  split; [done|]. exists v. split; [done|]. split.
  - by rewrite append_length, slice_upto_length.
  - intros Hle. by rewrite slice_upto_all.
Qed.

(** X6.  After a successful construction [get] answers for the three required
    key-names and for the further key-names to which the combined secret
    gives a non-empty string; for every other key-name it raises a
    [KeyError] that names it. *)
Theorem get_after_init (env : gmap string string) log keys k :
  __init__ env = (log, Ok keys) →
  (k ∈ REQUIRED_KEYS ∨ (∃ s, s ≠ "" ∧ dict_get (blob env) k = Some (VStr s)) →
   ∃ s, s ≠ "" ∧ get keys k = Ok (VStr s)) ∧
  (k ∉ REQUIRED_KEYS → (∀ s, dict_get (blob env) k = Some (VStr s) → s = "") →
   get keys k = Raise (Exn KeyError ("API key for " +:+ k +:+ " is missing") None)).
Proof.
  intros (log0 & masked & Hg & Hmiss & Hmask & _)%init_Ok_inv.
  destruct (gather_result env) as (log' & keys' & Hg' & Hget).
  rewrite Hg in Hg'. injection Hg' as _ <-.
  pose proof (mask_items_str_values _ _ Hmask) as Hstr. rewrite Forall_forall in Hstr.
  split.
  - intros Hk.
    assert (∃ v, dict_get keys k = Some v ∧ py_truthy v = true) as (v & Hv & Htruthy).
    { destruct (decide (k ∈ REQUIRED_KEYS)) as [Hreq|Hreq].
      - by apply missing_keys_nil.
      - destruct Hk as [Hk|(s & Hs & Hb)]; [done|].
        exists (VStr s). rewrite Hget, bool_decide_eq_false_2 by done.
        split; [done|]. by apply str_truthy_true. }
    destruct (Hstr _ (dict_get_elem_of _ _ _ Hv)) as [s Hs]. simpl in Hs. subst v.
    exists s. split; [by apply str_truthy_true|by apply get_truthy].
  - intros Hreq Hempty. unfold get, dict_get_or.
    rewrite Hget, bool_decide_eq_false_2 by done. simpl.
    destruct (dict_get (blob env) k) as [v|] eqn:Hb; simpl; [|done].
    assert (dict_get keys k = Some v) as Hv.
    { by rewrite Hget, bool_decide_eq_false_2. }
    destruct (Hstr _ (dict_get_elem_of _ _ _ Hv)) as [s Hs]. simpl in Hs. subst v.
    by rewrite (Hempty s eq_refl).
Qed.

End ApiKeyManagerFurther.


(** ** Further properties of the model loader *)

Section ModelLoaderFurther.
Context `{!PyRuntime} `{!LangChain}.
Import ModelLoader.


(** X8.  The default provider is used only when [LLM_PROVIDER] is unset: an
    empty value is looked up as it is, so that with a mapping as [llm]
    block that has no entry of the empty name [load_llm] raises a
    [ValueError] naming the empty string, whatever entries there are. *)
Theorem load_llm_empty_override (self : ModelLoader.t) (env : gmap string string) llm :
  env !! "LLM_PROVIDER" = Some "" →
  py_getitem (config self) "llm" = Ok (VDict llm) →
  dict_get llm "" = None →
  load_llm self env =
    ([LogEvent ERROR "LLM provider not found in config" [("provider", FText "")]],
     Raise (Exn ValueError "LLM provider '' not found in config" None)).
Proof.
  intros Henv Hllm Hnone. unfold load_llm, os_getenv_or. rewrite Hllm, Henv. simpl.
  unfold dict_contains. by rewrite Hnone.
Qed.

(** X9.  [load_embeddings] lets no exception of its body escape: it returns
    a client after the single record of the model name, or it raises a
    [DocumentPortalException] that keeps the original exception, the
    error record being the last one logged. *)
Theorem load_embeddings_contained (self : ModelLoader.t) :
  (∃ model_name c,
     load_embeddings self =
       ([LogEvent INFO "Loading embedding model" [("model", FValue model_name)]],
        Ok c)) ∨
  (∃ log e,
     load_embeddings self =
       (log ++ [LogEvent ERROR "Error loading embedding model"
                  [("error", FStrOfExn e)]],
        Raise (Exn DocumentPortalException "Failed to load embedding model"
                 (Some e)))).
Proof.
  unfold load_embeddings.
  destruct (embedding_model_name self) as [m|e]; simpl.
  2:{ right. by exists [], e. }
  destruct (ApiKeyManager.get _ _) as [k|e]; simpl.
  2:{ right. by eexists [_], e. }
  destruct (GoogleGenerativeAIEmbeddings m k) as [c|e]; simpl.
  - left. by exists m, c.
  - right. by eexists [_], e.
Qed.

(** X10.  With a resolver that was constructed successfully and a
    configuration that names the embedding model, the outcome of
    [load_embeddings] is that of the factory, called with that name and
    the resolver's [GOOGLE_API_KEY]: the client, or the factory's
    exception wrapped. *)
Theorem load_embeddings_after_init (self : ModelLoader.t)
    (env0 : gmap string string) log0 model_name :
  ApiKeyManager.__init__ env0 = (log0, Ok (api_key_mgr self)) →
  embedding_model_name self = Ok model_name →
  ∃ key,
    key ≠ "" ∧
    dict_get (api_key_mgr self) "GOOGLE_API_KEY" = Some (VStr key) ∧
    load_embeddings self =
      match GoogleGenerativeAIEmbeddings model_name (VStr key) with
      | Ok c =>
          ([LogEvent INFO "Loading embedding model" [("model", FValue model_name)]],
           Ok c)
      | Raise e =>
          ([LogEvent INFO "Loading embedding model" [("model", FValue model_name)];
            LogEvent ERROR "Error loading embedding model" [("error", FStrOfExn e)]],
           Raise (Exn DocumentPortalException "Failed to load embedding model"
                    (Some e)))
      end.
Proof.
  intros (l0 & masked & _ & Hmiss & Hmask & _)%init_Ok_inv Hname.
  destruct (missing_keys_nil _ "GOOGLE_API_KEY" Hmiss) as (v & Hv & Htruthy).
  { apply list_elem_of_In. simpl. auto. }
  apply mask_items_str_values in Hmask. rewrite Forall_forall in Hmask.
  destruct (Hmask _ (dict_get_elem_of _ _ _ Hv)) as [key Hkey]. simpl in Hkey. subst v.
  exists key. split; [by apply str_truthy_true|]. split; [done|].
  unfold load_embeddings. rewrite Hname. simpl.
  rewrite (get_truthy _ _ _ Hv Htruthy). simpl.
  by destruct (GoogleGenerativeAIEmbeddings _ _).
Qed.

End ModelLoaderFurther.


(** ** The constructor of the model loader *)

Section ModelLoaderStartup.
Context `{!PyRuntime}.
Import ModelLoader.

Lemma mode_step `{!Startup} env :
  ∃ record,
    (if local_mode env
     then bind (emit INFO "Running in LOCAL mode: .env loaded" [])
            (λ _, ret (load_dotenv env))
     else bind (emit INFO "Running in PRODUCTION mode" []) (λ _, ret env)) =
    ([record], Ok (resolver_env env)).
Proof. unfold resolver_env. destruct (local_mode env); by eexists. Qed.

Lemma init_startup_unfold `{!Startup} env :
  ∃ record,
    __init__ env =
      bind (([record], Ok (resolver_env env)) : M (gmap string string))
        (λ env,
           bind (ApiKeyManager.__init__ env) (λ api_key_mgr,
           bind (lift (load_config env)) (λ config,
           bind (lift (py_keys config)) (λ config_keys,
           bind (emit INFO "YAML config loaded" [("config_keys", FNames config_keys)])
             (λ _, ret (env, Build api_key_mgr config)))))).
Proof.
  destruct (mode_step env) as [record Hmode]. exists record.
  unfold __init__. by rewrite <- Hmode.
Qed.

(** X11.  Credentials come first: when the resolver cannot be constructed, the
    loader's constructor raises the resolver's exception after the mode
    record and the resolver's records, and the configuration is not
    loaded. *)
Theorem loader_init_fails_fast `{!Startup} (env : gmap string string) log e :
  ApiKeyManager.__init__ (resolver_env env) = (log, Raise e) →
  ∃ record, __init__ env = (record :: log, Raise e).
Proof.
  intros Hmgr. destruct (init_startup_unfold env) as [record ->].
  exists record. simpl. by rewrite Hmgr.
Qed.

(** X12.  What a constructed loader holds: a resolver that was constructed
    successfully on the environment left by the mode step, and the
    configuration [load_config] returned, which is a mapping. *)
Theorem loader_init_postcondition `{!Startup} (env env' : gmap string string) log self :
  __init__ env = (log, Ok (env', self)) →
  env' = resolver_env env ∧
  (∃ log0, ApiKeyManager.__init__ env' = (log0, Ok (api_key_mgr self))) ∧
  load_config env' = Ok (config self) ∧
  ∃ d, config self = VDict d.
Proof.
  destruct (init_startup_unfold env) as [record ->]. simpl.
  destruct (ApiKeyManager.__init__ (resolver_env env)) as [l0 [keys|e]] eqn:Hmgr;
    simpl; [|done].
  destruct (load_config (resolver_env env)) as [cfg|e] eqn:Hcfg; simpl; [|done].
  destruct cfg; simpl; try done.
  intros [= _ <- <-]. simpl. rewrite Hmgr. eauto 10.
Qed.

(** X13.  A configuration that is not a mapping, such as the [None] of an
    empty YAML file, makes the constructor raise [AttributeError] when
    it lists the configuration's keys, although the credentials were
    resolved. *)
Theorem loader_init_requires_mapping `{!Startup} (env : gmap string string) log keys v :
  ApiKeyManager.__init__ (resolver_env env) = (log, Ok keys) →
  load_config (resolver_env env) = Ok v →
  (∀ d, v ≠ VDict d) →
  ∃ record,
    __init__ env =
      (record :: log, Raise (Exn AttributeError "object has no attribute 'keys'" None)).
Proof.
  intros Hmgr Hcfg Hv. destruct (init_startup_unfold env) as [record ->].
  exists record. simpl. rewrite Hmgr. simpl. rewrite Hcfg. simpl.
  destruct v; simpl; rewrite ?app_nil_r; try done. by destruct (Hv d).
Qed.

(** X14.  In production mode, that is when [ENV] lowered is "production",
    the [.env] file plays no part: two startups that differ in
    [load_dotenv] only construct the same loader with the same records. *)
Theorem loader_init_production_ignores_dotenv (S1 S2 : Startup)
    (env : gmap string string) :
  @load_config S1 = @load_config S2 →
  py_lower (os_getenv_or env "ENV" "local") = "production" →
  @__init__ _ S1 env = @__init__ _ S2 env.
Proof.
  intros Hcfg Hprod. unfold __init__, local_mode. rewrite Hprod, Hcfg. done.
Qed.

End ModelLoaderStartup.


(** ** [parse_requirements] *)

Section SetupFacts.
Import Setup.

Lemma newline_is_space : is_space newline = true.
Proof. reflexivity. Qed.

Lemma lstrip_head s c rest : lstrip s = String c rest → is_space c = false.
Proof.
  induction s as [|a s IH]; simpl; [done|].
  destruct (is_space a) eqn:Ha; [done|]. by intros [= <- _].
Qed.

Lemma lstrip_fixed c rest : is_space c = false → lstrip (String c rest) = String c rest.
Proof. simpl. by intros ->. Qed.

Lemma rstrip_head c rest :
  is_space c = false → ∃ kept, rstrip (String c rest) = String c kept.
Proof. intros Hc. simpl. destruct (rstrip rest); rewrite ?Hc; by eexists. Qed.

Lemma rstrip_idemp s : rstrip (rstrip s) = rstrip s.
Proof.
  induction s as [|c s IH]; simpl; [done|].
  destruct (rstrip s) as [|a kept] eqn:Hs.
  - destruct (is_space c) eqn:Hc; simpl; [done|]. by rewrite Hc.
  - simpl in *. by rewrite IH.
Qed.

(** Stripping a stripped string changes nothing. *)
Lemma strip_idemp s : strip (strip s) = strip s.
Proof.
  unfold strip. destruct (lstrip s) as [|c rest] eqn:Hl; [done|].
  pose proof (lstrip_head _ _ _ Hl) as Hc.
  destruct (rstrip_head c rest Hc) as [kept Hk]. rewrite Hk.
  rewrite (lstrip_fixed _ _ Hc), <- Hk. apply rstrip_idemp.
Qed.

Lemma lstrip_chars s c : c ∈ String.list_ascii_of_string (lstrip s) → c ∈ String.list_ascii_of_string s.
Proof.
  induction s as [|a s IH]; simpl; [done|].
  destruct (is_space a); [|done]. intros Hc. right. auto.
Qed.

Lemma rstrip_chars s c : c ∈ String.list_ascii_of_string (rstrip s) → c ∈ String.list_ascii_of_string s.
Proof.
  induction s as [|a s IH]; simpl; [done|].
  destruct (rstrip s) as [|b kept] eqn:Hs.
  - destruct (is_space a); simpl; [by intros ?%elem_of_nil|].
    intros [->|?%elem_of_nil]%elem_of_cons; [left|done].
  - simpl in *. intros [->|Hc]%elem_of_cons; [left|right; auto].
Qed.

Lemma rstrip_snoc_space s c :
  is_space c = true → rstrip (s +:+ String c EmptyString) = rstrip s.
Proof. intros Hc. induction s as [|a s IH]; simpl; [by rewrite Hc|by rewrite IH]. Qed.

Lemma lstrip_snoc s t :
  lstrip (s +:+ t) = match lstrip s with
                     | EmptyString => lstrip t
                     | kept => kept +:+ t
                     end.
Proof.
  induction s as [|a s IH]; simpl; [done|].
  by destruct (is_space a).
Qed.

(** A line end after a line does not change what is left of it. *)
Lemma strip_snoc_newline s : strip (s +:+ String newline EmptyString) = strip s.
Proof.
  unfold strip. rewrite lstrip_snoc. destruct (lstrip s) as [|c kept] eqn:Hs; [done|].
  by rewrite rstrip_snoc_space.
Qed.

Lemma file_lines_nil text : file_lines text = [] → text = EmptyString.
Proof.
  destruct text as [|c rest]; simpl; [done|].
  destruct (Ascii.eqb c newline); [done|]. by destruct (file_lines rest).
Qed.

(** In a line of a file the newline character can only be the last one. *)
Lemma file_lines_newline_last text line :
  line ∈ file_lines text →
  ∃ body, (newline ∉ String.list_ascii_of_string body) ∧
          (line = body ∨ line = body +:+ String newline EmptyString).
Proof.
  revert line. induction text as [|c rest IH]; intros line; simpl.
  { by intros ?%elem_of_nil. }
  destruct (Ascii.eqb_spec c newline) as [->|Hc].
  - intros [->|Hin]%elem_of_cons; [|by apply IH].
    exists EmptyString. split; [by intros ?%elem_of_nil|by right].
  - destruct (file_lines rest) as [|l ls] eqn:Hrest.
    + intros ->%list_elem_of_singleton. exists (String c EmptyString).
      split; [|by left]. simpl. intros [<-|?%elem_of_nil]%elem_of_cons; done.
    + intros [->|Hin]%elem_of_cons; [|apply IH; by right].
      destruct (IH l) as (body & Hbody & Hl); [left|].
      exists (String c body). split.
      * simpl. intros [<-|?]%elem_of_cons; done.
      * destruct Hl as [->| ->]; [by left|by right].
Qed.

Lemma parse_requirements_elem text e :
  e ∈ parse_requirements text ↔
  ∃ line, line ∈ file_lines text ∧ is_requirement line = true ∧ e = strip line.
Proof.
  unfold parse_requirements. rewrite list_elem_of_fmap. split.
  - intros (line & -> & [Hin Hreq]%list_elem_of_In%filter_In).
    exists line. by rewrite list_elem_of_In.
  - intros (line & Hin & Hreq & ->). exists line. split; [done|].
    apply list_elem_of_In, filter_In. by rewrite <- list_elem_of_In.
Qed.

(** X15.  Every requirement returned is a non-empty text without white space
    at either end, and without a line end inside. *)
Theorem parse_requirements_entries_clean (text e : string) :
  e ∈ parse_requirements text →
  e ≠ EmptyString ∧ strip e = e ∧ newline ∉ String.list_ascii_of_string e.
Proof.
  intros (line & Hin & Hreq & ->)%parse_requirements_elem.
  unfold is_requirement in Hreq.
  apply andb_true_iff in Hreq as [[Hne _]%andb_true_iff _].
  split; [|split].
  - intros Heq. rewrite Heq in Hne. done.
  - apply strip_idemp.
  - destruct (file_lines_newline_last _ _ Hin) as (body & Hbody & [->| ->]).
    + intros Hc. by apply Hbody, lstrip_chars, rstrip_chars.
    + rewrite strip_snoc_newline. intros Hc.
      by apply Hbody, lstrip_chars, rstrip_chars.
Qed.

(** X16.  Comments and editable installs are recognised at the first column
    only: a line that begins with white space is kept, stripped, as soon
    as it is not blank, so that an indented comment becomes a
    requirement. *)
Theorem parse_requirements_keeps_indented (text line : string) c rest :
  line ∈ file_lines text → line = String c rest → is_space c = true →
  strip line ≠ EmptyString →
  strip line ∈ parse_requirements text.
Proof.
  intros Hin -> Hc Hne. apply parse_requirements_elem.
  exists (String c rest). split; [done|]. split; [|done].
  unfold is_requirement.
  assert (String.eqb (strip (String c rest)) "" = false) as ->.
  { by destruct (String.eqb_spec (strip (String c rest)) ""). }
  change (String.prefix "#" (String c rest))
    with (if ascii_dec "#" c then String.prefix "" rest else false).
  change (String.prefix "-e" (String c rest))
    with (if ascii_dec "-" c then String.prefix "e" rest else false).
  destruct (ascii_dec "#" c) as [<-|_]; [done|].
  by destruct (ascii_dec "-" c) as [<-|_].
Qed.

Lemma strip_blank s :
  Forall (λ c, is_space c = true) (String.list_ascii_of_string s) →
  strip s = EmptyString.
Proof.
  unfold strip. induction s as [|c s IH]; simpl; [done|].
  intros [Hc Hs]%Forall_cons. rewrite Hc. auto.
Qed.

Lemma file_lines_chars text line c :
  line ∈ file_lines text → c ∈ String.list_ascii_of_string line →
  c ∈ String.list_ascii_of_string text.
Proof.
  revert line. induction text as [|a rest IH]; intros line; simpl.
  { by intros ?%elem_of_nil. }
  destruct (Ascii.eqb_spec a newline) as [->|Ha].
  - intros [->|Hin]%elem_of_cons; simpl.
    + intros [->|?%elem_of_nil]%elem_of_cons; [left|done].
    + intros Hc. right. eauto.
  - destruct (file_lines rest) as [|l ls] eqn:Hrest.
    + intros ->%list_elem_of_singleton. simpl.
      intros [->|?%elem_of_nil]%elem_of_cons; [left|done].
    + intros [->|Hin]%elem_of_cons; simpl.
      * intros [->|Hc]%elem_of_cons; [left|right]. apply (IH l); [left|done].
      * intros Hc. right. apply (IH line); [by right|done].
Qed.

(** X17.  A file of white space only, the empty file included, has no
    requirements. *)
Theorem parse_requirements_blank (text : string) :
  Forall (λ c, is_space c = true) (String.list_ascii_of_string text) →
  parse_requirements text = [].
Proof.
  intros Hblank. destruct (parse_requirements text) as [|e es] eqn:Hp; [done|].
  assert (e ∈ parse_requirements text) as Hin by (rewrite Hp; left).
  apply parse_requirements_elem in Hin as (line & Hin & Hreq & _).
  unfold is_requirement in Hreq.
  apply andb_true_iff in Hreq as [[Hne _]%andb_true_iff _].
  rewrite strip_blank in Hne; [done|].
  rewrite Forall_forall in Hblank |- *. intros c Hc.
  apply Hblank. by eapply file_lines_chars.
Qed.

Lemma prefix_cons a p b t :
  String.prefix (String a p) (String b t) =
    if ascii_dec a b then String.prefix p t else false.
Proof. reflexivity. Qed.

Lemma prefix_empty t : String.prefix EmptyString t = true.
Proof. by destruct t. Qed.

Lemma is_requirement_snoc_newline line :
  line ≠ EmptyString →
  is_requirement (line +:+ String newline EmptyString) = is_requirement line.
Proof.
  intros Hne. unfold is_requirement. rewrite strip_snoc_newline.
  destruct line as [|a r]; [done|]. f_equal; [f_equal|]; f_equal.
  - change (String a r +:+ String newline EmptyString)
      with (String a (r +:+ String newline EmptyString)).
    rewrite !prefix_cons. destruct (ascii_dec "#" a); [|done].
    by rewrite !prefix_empty.
  - change (String a r +:+ String newline EmptyString)
      with (String a (r +:+ String newline EmptyString)).
    rewrite !prefix_cons. destruct (ascii_dec "-" a); [|done].
    destruct r as [|b r]; [done|].
    change (String b r +:+ String newline EmptyString)
      with (String b (r +:+ String newline EmptyString)).
    rewrite !prefix_cons. destruct (ascii_dec "e" b); [|done].
    by rewrite !prefix_empty.
Qed.

Lemma snoc_not_empty s c : s +:+ String c EmptyString ≠ EmptyString.
Proof. by destruct s. Qed.

(** The lines of a text that is followed by a line end: one more, empty
    line, or the last line completed. *)
Lemma file_lines_snoc_newline text :
  file_lines (text +:+ String newline EmptyString) =
    file_lines text ++ [String newline EmptyString] ∨
  ∃ init line,
    line ≠ EmptyString ∧ file_lines text = init ++ [line] ∧
    file_lines (text +:+ String newline EmptyString) =
      init ++ [line +:+ String newline EmptyString].
Proof.
  induction text as [|c rest IH]; [by left|].
  change (String c rest +:+ String newline EmptyString)
    with (String c (rest +:+ String newline EmptyString)).
  simpl file_lines. destruct (Ascii.eqb c newline).
  - destruct IH as [->|(init & line & Hne & -> & ->)]; [by left|].
    right. by exists (String c EmptyString :: init), line.
  - destruct IH as [Hfl|(init & line & Hne & Hfl & Hfl')].
    + rewrite Hfl. destruct (file_lines rest) as [|l ls]; simpl.
      * right. by exists [], (String c EmptyString).
      * by left.
    + rewrite Hfl, Hfl'. right. destruct init as [|i init]; simpl.
      * by exists [], (String c line).
      * by exists (String c i :: init), line.
Qed.

(** X18.  A final line end makes no difference: the file has the same
    requirements with and without it. *)
Theorem parse_requirements_final_newline (text : string) :
  parse_requirements (text +:+ String newline EmptyString) = parse_requirements text.
Proof.
  unfold parse_requirements.
  destruct (file_lines_snoc_newline text) as [->|(init & line & Hne & -> & ->)].
  - rewrite List.filter_app. simpl. by rewrite app_nil_r.
  - rewrite !List.filter_app. simpl.
    rewrite (is_requirement_snoc_newline _ Hne).
    destruct (is_requirement line); [|done].
    by rewrite !fmap_app, !list_fmap_singleton, strip_snoc_newline.
Qed.

Lemma file_lines_joined first second :
  file_lines (first +:+ String newline second) =
    file_lines (first +:+ String newline EmptyString) ++ file_lines second.
Proof.
  induction first as [|c rest IH]; [done|].
  change (String c rest +:+ String newline second)
    with (String c (rest +:+ String newline second)).
  change (String c rest +:+ String newline EmptyString)
    with (String c (rest +:+ String newline EmptyString)).
  simpl file_lines. rewrite IH. destruct (Ascii.eqb c newline); [done|].
  destruct (file_lines (rest +:+ String newline EmptyString)) as [|l ls] eqn:Hfl;
    [|done].
  apply file_lines_nil in Hfl. by destruct (snoc_not_empty rest newline).
Qed.

(** X19.  The file is read line by line: the requirements of two texts joined
    by a line end are those of the first followed by those of the
    second. *)
Theorem parse_requirements_joined (first second : string) :
  parse_requirements (first +:+ String newline second) =
    parse_requirements first ++ parse_requirements second.
Proof.
  rewrite <- (parse_requirements_final_newline first).
  unfold parse_requirements. by rewrite file_lines_joined, List.filter_app, fmap_app.
Qed.

End SetupFacts.


(** ** The properties at concrete inputs *)

#[local] Existing Instance Concrete.runtime.
#[local] Existing Instance Concrete.sdk.

Lemma required_cases k (P : string → Prop) :
  k ∈ ApiKeyManager.REQUIRED_KEYS →
  P "GROQ_API_KEY" → P "GOOGLE_API_KEY" → P "OPENAI_API_KEY" → P k.
Proof.
  unfold ApiKeyManager.REQUIRED_KEYS. intros Hk ? ? ?.
  repeat (apply elem_of_cons in Hk as [->|Hk]; [done|]).
  by apply elem_of_nil in Hk.
Qed.

(** The decoder on the example of the source, on a text that is not
    JSON and on a JSON value that is not an object. *)
Example decode_two_keys :
  Concrete.decode Concrete.two_keys_blob =
    Ok (VDict [("GROQ_API_KEY", VStr "groq-abc"); ("GOOGLE_API_KEY", VStr "g-google-xyz")]).
Proof. vm_compute. reflexivity. Qed.

Example decode_not_json : ∃ e, Concrete.decode "not json" = Raise e.
Proof. eexists. vm_compute. reflexivity. Qed.

Example decode_array : Concrete.decode "[1, 2]" = Ok (VList [VInt 1; VInt 2]).
Proof. vm_compute. reflexivity. Qed.

(** Construction on the example of the source with the third key as a
    variable: three records and the three credentials. *)
Example init_two_and_one :
  ApiKeyManager.__init__ Concrete.env_two_and_one =
    ([LogEvent INFO "Loaded API_KEYS from ECS secret" [];
      LogEvent INFO "Loaded OPENAI_API_KEY from individual env var" [];
      LogEvent INFO "API keys loaded"
        [("keys", FMasked [("GROQ_API_KEY", "groq-a..."); ("GOOGLE_API_KEY", "g-goog...");
                           ("OPENAI_API_KEY", "sk-ABC...")])]],
     Ok Concrete.three_keys).
Proof. vm_compute. reflexivity. Qed.

(** A truthy value of the combined secret that is not a string passes
    the final check and then makes the success record raise: the store
    of a successful construction holds strings only. *)
Example init_numeric_value :
  (ApiKeyManager.__init__ Concrete.env_numeric).2 =
    Raise (Exn TypeError "object is not subscriptable" None).
Proof. vm_compute. reflexivity. Qed.

(** With only [GROQ_API_KEY] set, construction fails and the error
    record lists the two other key-names. *)
Lemma init_missing_raises_groq_only :
  ∃ log,
    ApiKeyManager.__init__ Concrete.env_groq_only =
      (log ++ [LogEvent ERROR "Missing required API keys"
                 [("missing_keys", FNames ["GOOGLE_API_KEY"; "OPENAI_API_KEY"])]],
       Raise (Exn DocumentPortalException "Missing API keys" None)).
Proof.
  apply (@init_missing_raises Concrete.runtime Concrete.env_groq_only).
  vm_compute. discriminate.
Defined.

(** C1 as stated fails: with only [GROQ_API_KEY] set, the exception that
    is raised carries the text "Missing API keys", which names neither
    of the two missing key-names. *)
Lemma init_missing_message_names_no_key :
  ∃ log e,
    ApiKeyManager.__init__ Concrete.env_groq_only = (log, Raise e) ∧
    missing_from_sources Concrete.env_groq_only = ["GOOGLE_API_KEY"; "OPENAI_API_KEY"] ∧
    exn_arg e = "Missing API keys" ∧
    ¬ lists_exactly (exn_arg e) (missing_from_sources Concrete.env_groq_only).
Proof.
  eexists _, _. split; [vm_compute; reflexivity|].
  split; [vm_compute; reflexivity|]. split; [reflexivity|].
  intros Hl. specialize (Hl "GOOGLE_API_KEY").
  assert ("GOOGLE_API_KEY" ∈ ApiKeyManager.REQUIRED_KEYS) as Hreq
    by (apply list_elem_of_In; vm_compute; auto).
  assert ("GOOGLE_API_KEY" ∈ missing_from_sources Concrete.env_groq_only) as Hin
    by (apply list_elem_of_In; vm_compute; auto).
  apply (Hl Hreq) in Hin. vm_compute in Hin. discriminate.
Qed.

(** The masked record of the source's example environment. *)
Lemma init_logs_masked_two_and_one :
  (∃ log0 masked,
     [LogEvent INFO "Loaded API_KEYS from ECS secret" [];
      LogEvent INFO "Loaded OPENAI_API_KEY from individual env var" [];
      LogEvent INFO "API keys loaded"
        [("keys", FMasked [("GROQ_API_KEY", "groq-a..."); ("GOOGLE_API_KEY", "g-goog...");
                           ("OPENAI_API_KEY", "sk-ABC...")])]] =
     log0 ++ [LogEvent INFO "API keys loaded" [("keys", FMasked masked)]] ∧
     Forall2 (λ kv km, km.1 = kv.1 ∧
                ∃ v, kv.2 = VStr v ∧ km.2 = slice_upto 6 v +:+ "..." ∧
                     (km.2 = v ↔ looks_masked v)) Concrete.three_keys masked) ∧
  ApiKeyManager.mask (VStr "sk-ABCDEFGH") = Ok "sk-ABC...".
Proof.
  apply (@init_logs_masked Concrete.runtime Concrete.env_two_and_one).
  vm_compute. reflexivity.
Defined.

(** C2 as stated fails: a secret of nine characters that ends in three
    dots is logged in full. *)
Lemma init_logs_dotted_secret_in_full :
  ∃ log keys masked,
    ApiKeyManager.__init__ Concrete.env_dotted = (log, Ok keys) ∧
    last log = Some (LogEvent INFO "API keys loaded" [("keys", FMasked masked)]) ∧
    dict_get keys "GROQ_API_KEY" = Some (VStr "sk-ABC...") ∧
    ("GROQ_API_KEY", "sk-ABC...") ∈ masked.
Proof.
  eexists _, _, _. split; [vm_compute; reflexivity|].
  split; [reflexivity|]. split; [reflexivity|]. left.
Qed.

(** The three required key-names after construction on the source's
    example environment. *)
Lemma init_required_present_two_and_one :
  (∃ s, s ≠ "" ∧ dict_get Concrete.three_keys "GROQ_API_KEY" = Some (VStr s) ∧
        ApiKeyManager.get Concrete.three_keys "GROQ_API_KEY" = Ok (VStr s)) ∧
  (∃ s, s ≠ "" ∧ dict_get Concrete.three_keys "GOOGLE_API_KEY" = Some (VStr s) ∧
        ApiKeyManager.get Concrete.three_keys "GOOGLE_API_KEY" = Ok (VStr s)) ∧
  (∃ s, s ≠ "" ∧ dict_get Concrete.three_keys "OPENAI_API_KEY" = Some (VStr s) ∧
        ApiKeyManager.get Concrete.three_keys "OPENAI_API_KEY" = Ok (VStr s)).
Proof.
  pose proof (@init_required_present Concrete.runtime Concrete.env_two_and_one
                _ Concrete.three_keys eq_refl) as Hall.
  repeat split; apply Hall; apply list_elem_of_In; vm_compute; auto.
Defined.

(** Two keys from the combined secret and the third from its variable. *)
Lemma init_union_blob_first_two_and_one :
  ∃ log keys,
    ApiKeyManager.__init__ Concrete.env_two_and_one = (log, Ok keys) ∧
    ∀ k, dict_get keys k =
           dict_get [("GROQ_API_KEY", VStr "groq-abc");
                     ("GOOGLE_API_KEY", VStr "g-google-xyz")] k ∪
           (if bool_decide (k ∈ ApiKeyManager.REQUIRED_KEYS)
            then VStr <$> Concrete.env_two_and_one !! k else None).
Proof.
  apply (@init_union_blob_first Concrete.runtime Concrete.env_two_and_one
           Concrete.two_keys_blob).
  - vm_compute. reflexivity.
  - vm_compute. discriminate.
  - vm_compute. reflexivity.
  - repeat constructor; simpl; eexists; (split; [reflexivity|discriminate]).
  - intros k Hk. pattern k. apply (required_cases k); [done|..].
    + vm_compute. discriminate.
    + vm_compute. discriminate.
    + intros _. exists "sk-ABCDEFGH". split; [vm_compute; reflexivity|discriminate].
Defined.

(** A combined secret that is not JSON, with the three variables set. *)
Lemma init_malformed_blob_not_json :
  (∃ log, ApiKeyManager.load_combined Concrete.env_malformed = (log, Ok [])) ∧
  (ApiKeyManager.__init__ Concrete.env_malformed).2 =
    (ApiKeyManager.__init__ (delete "API_KEYS" Concrete.env_malformed)).2 ∧
  (ApiKeyManager.__init__ Concrete.env_malformed).2 = Ok Concrete.three_keys.
Proof.
  destruct (@init_malformed_blob Concrete.runtime Concrete.env_malformed "not json")
    as (Hload & Hsame & Hthree).
  - vm_compute. reflexivity.
  - intros d. vm_compute. discriminate.
  - split; [done|]. split; [done|].
    apply Hthree; first [vm_compute; reflexivity | discriminate].
Defined.


(** A fourth key-name of the combined secret is kept, masked in the
    record and returned by [get]. *)
Lemma extra_blob_keys_kept_hf_token :
  ∃ log keys,
    ApiKeyManager.__init__ Concrete.env_extra = (log, Ok keys) ∧
    dict_get keys "HF_TOKEN" = Some (VStr "hf-secret-123") ∧
    (∃ s log0 masked,
       VStr "hf-secret-123" = VStr s ∧
       log = log0 ++ [LogEvent INFO "API keys loaded" [("keys", FMasked masked)]] ∧
       ("HF_TOKEN", slice_upto 6 s +:+ "...") ∈ masked) ∧
    (py_truthy (VStr "hf-secret-123") = true →
     ApiKeyManager.get keys "HF_TOKEN" = Ok (VStr "hf-secret-123")).
Proof.
  eexists _, _. split; [vm_compute; reflexivity|].
  eapply (@extra_blob_keys_kept Concrete.runtime Concrete.env_extra
            Concrete.extra_key_blob
            [("GROQ_API_KEY", VStr "groq-abc"); ("HF_TOKEN", VStr "hf-secret-123")]).
  - vm_compute. reflexivity.
  - vm_compute. discriminate.
  - vm_compute. reflexivity.
  - vm_compute. reflexivity.
  - intros Hk%list_elem_of_In. vm_compute in Hk. intuition discriminate.
  - vm_compute. reflexivity.
Defined.

(** A configuration without [embedding_model] block: the [KeyError] is
    logged and wrapped; with the block, the factory receives the model
    name and the key. *)
Lemma load_embeddings_wraps_examples :
  (∃ log,
     ModelLoader.load_embeddings Concrete.loader_unknown_tag =
       (log ++ [LogEvent ERROR "Error loading embedding model"
                  [("error", FStrOfExn (Exn KeyError "embedding_model" None))]],
        Raise (Exn DocumentPortalException "Failed to load embedding model"
                 (Some (Exn KeyError "embedding_model" None))))) ∧
  ModelLoader.load_embeddings Concrete.loader =
    ([LogEvent INFO "Loading embedding model"
        [("model", FValue (VStr "models/text-embedding-004"))]],
     Ok (Concrete.EmbeddingsCall (VStr "models/text-embedding-004")
           (VStr "g-google-xyz"))).
Proof.
  split.
  - apply (proj1 (@load_embeddings_wraps Concrete.sdk Concrete.loader_unknown_tag)).
    left. vm_compute. reflexivity.
  - apply (proj2 (@load_embeddings_wraps Concrete.sdk Concrete.loader)
             (VStr "models/text-embedding-004") (VStr "g-google-xyz"));
      vm_compute; reflexivity.
Defined.

(** The example of the specification: the [openai] entry without a token
    budget, and the key that came from the variable [OPENAI_API_KEY]. *)
Lemma load_llm_openai_default_example :
  provided Concrete.env_two_and_one "OPENAI_API_KEY" = Some (VStr "sk-ABCDEFGH") ∧
  ModelLoader.load_llm Concrete.loader ∅ =
    ([LogEvent INFO "Loading LLM"
        [("provider", FValue (VStr "openai")); ("model", FValue (VStr "gpt-x"))]],
     Ok (Concrete.OpenAIChatCall (VStr "gpt-x") (VStr "sk-ABCDEFGH") (VFloat 0.1)
           (VInt 2048))).
Proof.
  destruct (@load_llm_openai_default Concrete.runtime Concrete.sdk Concrete.loader
              ∅ Concrete.env_two_and_one _ Concrete.llm_block Concrete.openai_entry
              ltac:(vm_compute; reflexivity) eq_refl eq_refl eq_refl eq_refl
              eq_refl eq_refl eq_refl)
    as (key & _ & Hprovided & Hstore & Hcall).
  injection Hstore as <-. by split.
Defined.

(** [LLM_PROVIDER=mistral] with an [llm] block that has no such entry,
    an entry tagged "mistral", and the [openai] entry of the
    specification, for which the OpenAI factory is called. *)
Lemma load_llm_validation_errors_mistral :
  (ModelLoader.load_llm Concrete.loader Concrete.env_mistral).2 =
    Raise (Exn ValueError "LLM provider 'mistral' not found in config" None) ∧
  (ModelLoader.load_llm Concrete.loader_unknown_tag ∅).2 =
    Raise (Exn ValueError "Unsupported LLM provider: mistral" None) ∧
  (other_error (ModelLoader.load_llm Concrete.loader ∅).2 ∨
   selected_call Concrete.loader ∅ (ModelLoader.load_llm Concrete.loader ∅).2) ∧
  (provider_key_absent Concrete.loader Concrete.env_mistral ∨
   ∃ tag, provider_tag_unsupported Concrete.loader Concrete.env_mistral tag).
Proof.
  split; [|split; [|split]].
  - apply (proj1 (@load_llm_validation_errors Concrete.runtime Concrete.sdk
                    Concrete.loader Concrete.env_mistral)).
    eexists. split; vm_compute; reflexivity.
  - apply (proj1 (proj2 (@load_llm_validation_errors Concrete.runtime Concrete.sdk
                           Concrete.loader_unknown_tag ∅)) (VStr "mistral")).
    eexists _, _. repeat split; vm_compute; reflexivity.
  - apply (proj1 (proj2 (proj2 (@load_llm_validation_errors Concrete.runtime Concrete.sdk
                                  Concrete.loader ∅)))).
    + intros (blk & Hblk & Hin). vm_compute in Hblk. injection Hblk as <-.
      vm_compute in Hin. discriminate.
    + intros tag (blk & cfg & Hblk & _ & Hcfg & Htag & _ & _ & Ho).
      vm_compute in Hblk. injection Hblk as <-.
      vm_compute in Hcfg. injection Hcfg as <-.
      vm_compute in Htag. injection Htag as <-.
      vm_compute in Ho. discriminate.
  - apply (proj2 (proj2 (proj2 (@load_llm_validation_errors Concrete.runtime Concrete.sdk
                                  Concrete.loader Concrete.env_mistral)))
             ltac:(intros m k t n e [H|[H|H]]; discriminate H)
             (Exn ValueError "LLM provider 'mistral' not found in config" None)).
    + vm_compute. reflexivity.
    + reflexivity.
Defined.

(** C7 as stated fails: with the [openai] entry of the specification and
    an OpenAI factory that rejects its arguments with a [ValueError],
    [load_llm] ends with that [ValueError], although the provider key is
    in the [llm] block and the provider tag is supported. *)
Lemma load_llm_factory_value_error :
  (@ModelLoader.load_llm Concrete.runtime Concrete.sdk_rejecting Concrete.loader ∅).2 =
    Raise (Exn ValueError "1 validation error for ChatOpenAI" None) ∧
  ¬ provider_key_absent Concrete.loader ∅ ∧
  ∀ tag, ¬ provider_tag_unsupported Concrete.loader ∅ tag.
Proof.
  split; [vm_compute; reflexivity|]. split.
  - intros (blk & Hblk & Hin). vm_compute in Hblk. injection Hblk as <-.
    vm_compute in Hin. discriminate.
  - intros tag (blk & cfg & Hblk & _ & Hcfg & Htag & _ & _ & Ho).
    vm_compute in Hblk. injection Hblk as <-.
    vm_compute in Hcfg. injection Hcfg as <-.
    vm_compute in Htag. injection Htag as <-.
    vm_compute in Ho. discriminate.
Qed.

(** C4 as stated fails: the combined secret gives [GROQ_API_KEY] a
    non-empty value and the two other key-names are set as non-empty
    variables, yet a further entry of the object that is [null] makes
    the success record raise. *)
Lemma init_union_fails_on_null_entry :
  json_loads Concrete.null_note_blob =
    Ok (VDict [("GROQ_API_KEY", VStr "groq-abc"); ("NOTE", VNone)]) ∧
  Concrete.env_null_note !! "API_KEYS" = Some Concrete.null_note_blob ∧
  Concrete.env_null_note !! "GOOGLE_API_KEY" = Some "g-google-xyz" ∧
  Concrete.env_null_note !! "OPENAI_API_KEY" = Some "sk-ABCDEFGH" ∧
  (ApiKeyManager.__init__ Concrete.env_null_note).2 =
    Raise (Exn TypeError "object is not subscriptable" None).
Proof. repeat split; vm_compute; reflexivity. Qed.

(** ** The further properties at concrete inputs *)

#[local] Existing Instance Concrete.startup.

Lemma init_three_variables_dotted :
  ApiKeyManager.__init__ Concrete.env_dotted =
    ([LogEvent INFO "Loaded GROQ_API_KEY from individual env var" [];
      LogEvent INFO "Loaded GOOGLE_API_KEY from individual env var" [];
      LogEvent INFO "Loaded OPENAI_API_KEY from individual env var" [];
      LogEvent INFO "API keys loaded"
        [("keys", FMasked [("GROQ_API_KEY", slice_upto 6 "sk-ABC..." +:+ "...");
                           ("GOOGLE_API_KEY", slice_upto 6 "g-google-xyz" +:+ "...");
                           ("OPENAI_API_KEY", slice_upto 6 "sk-ABCDEFGH" +:+ "...")])]],
     Ok [("GROQ_API_KEY", VStr "sk-ABC..."); ("GOOGLE_API_KEY", VStr "g-google-xyz");
         ("OPENAI_API_KEY", VStr "sk-ABCDEFGH")]).
Proof.
  apply (@init_three_variables Concrete.runtime Concrete.env_dotted);
    first [by left; vm_compute | vm_compute; reflexivity | discriminate].
Defined.

Lemma init_reads_four_variables_home :
  ApiKeyManager.__init__ Concrete.env_with_home =
  ApiKeyManager.__init__ Concrete.env_two_and_one.
Proof.
  apply (@init_reads_four_variables Concrete.runtime).
  - vm_compute. reflexivity.
  - intros k Hk. pattern k. apply (required_cases k); [done|..]; vm_compute; reflexivity.
Defined.

Lemma blob_value_hides_variable_groq :
  ApiKeyManager.__init__ (<["GROQ_API_KEY" := "other"]> Concrete.env_two_and_one) =
    ApiKeyManager.__init__ Concrete.env_two_and_one ∧
  ApiKeyManager.__init__ (delete "GROQ_API_KEY" Concrete.env_two_and_one) =
    ApiKeyManager.__init__ Concrete.env_two_and_one.
Proof.
  apply (@blob_value_hides_variable Concrete.runtime Concrete.env_two_and_one
           "GROQ_API_KEY" (VStr "groq-abc") "other").
  - apply list_elem_of_In. vm_compute. auto.
  - vm_compute. reflexivity.
  - reflexivity.
Defined.

Lemma init_rejects_non_string_number :
  ∃ log keys,
    ApiKeyManager.gather Concrete.env_numeric = (log, Ok keys) ∧
    ∃ k' v' e,
      (k', v') ∈ blob Concrete.env_numeric ∧ (∀ s, v' ≠ VStr s) ∧
      ApiKeyManager.mask v' = Raise e ∧
      ((∀ d, v' ≠ VDict d) → exn_cls e = TypeError) ∧
      ApiKeyManager.__init__ Concrete.env_numeric = (log, Raise e).
Proof.
  apply (@init_rejects_non_string Concrete.runtime Concrete.env_numeric
           "GROQ_API_KEY" (VInt 123)).
  - vm_compute. reflexivity.
  - reflexivity.
  - discriminate.
Defined.

Lemma init_logs_short_secret_whole_abc :
  ∃ log0 masked,
    [LogEvent INFO "Loaded GROQ_API_KEY from individual env var" [];
     LogEvent INFO "Loaded GOOGLE_API_KEY from individual env var" [];
     LogEvent INFO "Loaded OPENAI_API_KEY from individual env var" [];
     LogEvent INFO "API keys loaded"
       [("keys", FMasked [("GROQ_API_KEY", "abc..."); ("GOOGLE_API_KEY", "g-goog...");
                          ("OPENAI_API_KEY", "sk-ABC...")])]] =
    log0 ++ [LogEvent INFO "API keys loaded" [("keys", FMasked masked)]] ∧
    Forall2 (λ kv km, km.1 = kv.1 ∧
               ∃ v, kv.2 = VStr v ∧
                    String.length km.2 = String.length v `min` 6 + 3 ∧
                    (String.length v ≤ 6 → km.2 = v +:+ "..."))
      [("GROQ_API_KEY", VStr "abc"); ("GOOGLE_API_KEY", VStr "g-google-xyz");
       ("OPENAI_API_KEY", VStr "sk-ABCDEFGH")] masked.
Proof.
  apply (@init_logs_short_secret_whole Concrete.runtime Concrete.env_short).
  vm_compute. reflexivity.
Defined.

Lemma get_after_init_extra :
  (∃ s, s ≠ "" ∧
        ApiKeyManager.get
          [("GROQ_API_KEY", VStr "groq-abc"); ("HF_TOKEN", VStr "hf-secret-123");
           ("GOOGLE_API_KEY", VStr "g-google-xyz"); ("OPENAI_API_KEY", VStr "sk-ABCDEFGH")]
          "HF_TOKEN" = Ok (VStr s)) ∧
  ApiKeyManager.get
    [("GROQ_API_KEY", VStr "groq-abc"); ("HF_TOKEN", VStr "hf-secret-123");
     ("GOOGLE_API_KEY", VStr "g-google-xyz"); ("OPENAI_API_KEY", VStr "sk-ABCDEFGH")]
    "COHERE_API_KEY" =
    Raise (Exn KeyError ("API key for " +:+ "COHERE_API_KEY" +:+ " is missing") None).
Proof.
  split.
  - eapply (proj1 (@get_after_init Concrete.runtime Concrete.env_extra _ _ "HF_TOKEN"
                     ltac:(vm_compute; reflexivity))).
    right. exists "hf-secret-123". split; [discriminate|vm_compute; reflexivity].
  - eapply (proj2 (@get_after_init Concrete.runtime Concrete.env_extra _ _
                     "COHERE_API_KEY" ltac:(vm_compute; reflexivity))).
    + intros Hk%list_elem_of_In. vm_compute in Hk. intuition discriminate.
    + intros s Hs. vm_compute in Hs. discriminate.
Defined.


Lemma load_llm_empty_override_example :
  ModelLoader.load_llm Concrete.loader Concrete.env_empty_provider =
    ([LogEvent ERROR "LLM provider not found in config" [("provider", FText "")]],
     Raise (Exn ValueError "LLM provider '' not found in config" None)).
Proof.
  apply (@load_llm_empty_override Concrete.runtime Concrete.sdk Concrete.loader
           Concrete.env_empty_provider Concrete.llm_block);
    vm_compute; reflexivity.
Defined.

Lemma load_embeddings_after_init_example :
  ∃ key,
    key ≠ "" ∧
    dict_get Concrete.three_keys "GOOGLE_API_KEY" = Some (VStr key) ∧
    ModelLoader.load_embeddings Concrete.loader =
      ([LogEvent INFO "Loading embedding model"
          [("model", FValue (VStr "models/text-embedding-004"))]],
       Ok (Concrete.EmbeddingsCall (VStr "models/text-embedding-004") (VStr key))).
Proof.
  destruct (@load_embeddings_after_init Concrete.runtime Concrete.sdk Concrete.loader
              Concrete.env_two_and_one _ (VStr "models/text-embedding-004")
              ltac:(vm_compute; reflexivity) eq_refl)
    as (key & Hne & Hkey & Hload).
  by exists key.
Defined.

Lemma loader_init_fails_fast_production :
  ∃ record,
    ModelLoader.__init__ Concrete.env_production =
      ([record;
        LogEvent ERROR "Missing required API keys"
          [("missing_keys", FNames ["GROQ_API_KEY"; "GOOGLE_API_KEY"; "OPENAI_API_KEY"])]],
       Raise (Exn DocumentPortalException "Missing API keys" None)).
Proof.
  apply (@loader_init_fails_fast Concrete.runtime Concrete.startup Concrete.env_production).
  vm_compute. reflexivity.
Defined.

Lemma loader_init_postcondition_local :
  Concrete.dotenv_file = resolver_env ∅ ∧
  (∃ log0, ApiKeyManager.__init__ Concrete.dotenv_file = (log0, Ok Concrete.three_keys)) ∧
  load_config Concrete.dotenv_file = Ok Concrete.config_openai ∧
  ∃ d, Concrete.config_openai = VDict d.
Proof.
  eapply (@loader_init_postcondition Concrete.runtime Concrete.startup ∅
            Concrete.dotenv_file _ Concrete.loader).
  vm_compute. reflexivity.
Defined.

Lemma loader_init_requires_mapping_empty_file :
  ∃ record,
    @ModelLoader.__init__ Concrete.runtime Concrete.startup_empty_config ∅ =
      (record ::
       [LogEvent INFO "Loaded GROQ_API_KEY from individual env var" [];
        LogEvent INFO "Loaded GOOGLE_API_KEY from individual env var" [];
        LogEvent INFO "Loaded OPENAI_API_KEY from individual env var" [];
        LogEvent INFO "API keys loaded"
          [("keys", FMasked [("GROQ_API_KEY", "groq-a..."); ("GOOGLE_API_KEY", "g-goog...");
                             ("OPENAI_API_KEY", "sk-ABC...")])]],
       Raise (Exn AttributeError "object has no attribute 'keys'" None)).
Proof.
  apply (@loader_init_requires_mapping Concrete.runtime Concrete.startup_empty_config
           ∅ _ Concrete.three_keys VNone).
  - vm_compute. reflexivity.
  - reflexivity.
  - discriminate.
Defined.

Lemma loader_init_production_ignores_dotenv_example :
  @ModelLoader.__init__ Concrete.runtime Concrete.startup Concrete.env_production =
  @ModelLoader.__init__ Concrete.runtime Concrete.startup_no_dotenv Concrete.env_production.
Proof.
  apply (@loader_init_production_ignores_dotenv Concrete.runtime Concrete.startup
           Concrete.startup_no_dotenv Concrete.env_production).
  - reflexivity.
  - vm_compute. reflexivity.
Defined.

Lemma parse_requirements_entries_clean_langchain :
  "langchain==0.3.0" ≠ EmptyString ∧
  Setup.strip "langchain==0.3.0" = "langchain==0.3.0" ∧
  Setup.newline ∉ String.list_ascii_of_string "langchain==0.3.0".
Proof.
  apply (parse_requirements_entries_clean Concrete.requirements_txt).
  vm_compute. left.
Defined.

Lemma parse_requirements_keeps_indented_comment :
  "# optional" ∈ Setup.parse_requirements Concrete.requirements_txt.
Proof.
  apply (parse_requirements_keeps_indented Concrete.requirements_txt
           ("  # optional" +:+ String Setup.newline "") " " (" # optional" +:+ String Setup.newline "")).
  - vm_compute. do 4 right. left.
  - reflexivity.
  - reflexivity.
  - vm_compute. discriminate.
Defined.

Lemma parse_requirements_blank_two_lines :
  Setup.parse_requirements Concrete.blank_txt = [].
Proof.
  apply parse_requirements_blank. vm_compute. repeat constructor.
Defined.
